(** * A contact-form backend: rate limiter, validation and submission store

    Shallow embedding of [app.py], a Flask application with five routes.
    The handlers are written in a small state-and-exception monad over the
    process state the program mutates: the module-level list
    [contact_requests], the file [contact_submissions.json] and the
    module-level dictionary [CONTACT_INFO].  Everything a request brings from
    outside (peer address, decoded body, headers, the readings of the wall
    clock, what the disk does) is a field of [request]. *)

From Stdlib Require Import ZArith List String Ascii Bool Lia.
Import ListNotations.
Local Open Scope string_scope.
Local Open Scope Z_scope.

Set Warnings "-register-all".

(** ** Python values *)

(** A decoded JSON document, as [json.load] and [request.get_json] return it.
    A Python dict is an association list in insertion order, with distinct
    keys.  Numbers are taken as integers: the program only tests a number
    for truth and stores it. *)
Inductive json : Type :=
| JNull
| JBool (b : bool)
| JNum (z : Z)
| JStr (s : string)
| JArr (items : list json)
| JObj (fields : list (string * json)).

(** The exceptions the program can meet.  All of them derive from
    [Exception]. *)
Inductive exn : Type :=
| AttributeError
| TypeError
| JSONDecodeError
| FileNotFoundError
| OSError
| UnicodeDecodeError
| RecursionError
| ValueError
| HTTPException (code : Z).

Inductive outcome (A : Type) : Type :=
| Ret (a : A)
| Exc (e : exn).
Arguments Ret {A} a.
Arguments Exc {A} e.

(** Truth value of an object, as [if not data] and [all([...])] test it. *)
Definition truthy (v : json) : bool :=
  match v with
  | JNull => false
  | JBool b => b
  | JNum z => negb (z =? 0)
  | JStr s => negb (String.eqb s "")
  | JArr items => match items with [] => false | _ :: _ => true end
  | JObj fields => match fields with [] => false | _ :: _ => true end
  end.

Fixpoint assoc (k : string) (fields : list (string * json)) : option json :=
  match fields with
  | [] => None
  | (k', v) :: rest => if String.eqb k' k then Some v else assoc k rest
  end.

(** [data.get(key, default)]: only a dict has the method. *)
Definition dict_get (data : json) (key : string) (default : json)
  : outcome json :=
  match data with
  | JObj fields =>
      match assoc key fields with
      | Some v => Ret v
      | None => Ret default
      end
  | _ => Exc AttributeError
  end.

(** ** Strings *)

(** [str.isspace] on one character, for code points below 256. *)
Definition isspace (c : ascii) : bool :=
  let n := Z.of_N (N_of_ascii c) in
  ((9 <=? n) && (n <=? 13)) || ((28 <=? n) && (n <=? 32))
  || (n =? 133) || (n =? 160).

Fixpoint lstrip (s : string) : string :=
  match s with
  | EmptyString => EmptyString
  | String c rest => if isspace c then lstrip rest else s
  end.

Fixpoint rstrip (s : string) : string :=
  match s with
  | EmptyString => EmptyString
  | String c rest =>
      match rstrip rest with
      | EmptyString => if isspace c then EmptyString else String c EmptyString
      | r => String c r
      end
  end.

Definition str_strip (s : string) : string := rstrip (lstrip s).

(** [v.strip()]: only a str has the method. *)
Definition strip (v : json) : outcome string :=
  match v with
  | JStr s => Ret (str_strip s)
  | _ => Exc AttributeError
  end.

(** [c in s] for a one-character [c]. *)
Fixpoint contains (c : ascii) (s : string) : bool :=
  match s with
  | EmptyString => false
  | String c' rest => Ascii.eqb c' c || contains c rest
  end.

(** ** [datetime] *)

(** A naive [datetime], with the fields the standard library keeps. *)
Record datetime : Type := mkdatetime {
  year : Z; month : Z; day : Z;
  hour : Z; minute : Z; second : Z; microsecond : Z
}.

(** A normalised [timedelta]: [0 <= seconds < 86400] and
    [0 <= microseconds < 1000000]; [days] carries the sign. *)
Record timedelta : Type := mktimedelta {
  days : Z; seconds : Z; microseconds : Z
}.

Definition is_leap (y : Z) : bool :=
  (y mod 4 =? 0) && (negb (y mod 100 =? 0) || (y mod 400 =? 0)).

Definition days_before_year (y : Z) : Z :=
  let p := y - 1 in p * 365 + p / 4 - p / 100 + p / 400.

Definition DAYS_BEFORE_MONTH : list Z :=
  [0; 0; 31; 59; 90; 120; 151; 181; 212; 243; 273; 304; 334].

Definition days_before_month (y m : Z) : Z :=
  nth (Z.to_nat m) DAYS_BEFORE_MONTH 0
  + (if (2 <? m) && is_leap y then 1 else 0).

Definition ymd2ord (y m d : Z) : Z :=
  days_before_year y + days_before_month y m + d.

Definition toordinal (t : datetime) : Z := ymd2ord (year t) (month t) (day t).

(** The constructor [timedelta(days, seconds, microseconds)] normalises its
    arguments; [/] and [mod] on [Z] round like Python's [divmod]. *)
Definition new_timedelta (d s us : Z) : timedelta :=
  let total := (d * 86400 + s) * 1000000 + us in
  {| days := total / 86400000000;
     seconds := (total mod 86400000000) / 1000000;
     microseconds := total mod 1000000 |}.

(** [a - b] on two naive datetimes. *)
Definition datetime_sub (a b : datetime) : timedelta :=
  let secs1 := second a + minute a * 60 + hour a * 3600 in
  let secs2 := second b + minute b * 60 + hour b * 3600 in
  new_timedelta (toordinal a - toordinal b) (secs1 - secs2)
                (microsecond a - microsecond b).

(** Microseconds since the start of year 1: the position of a datetime on
    the time line (used in statements, not by the program). *)
Definition micros (t : datetime) : Z :=
  (toordinal t * 86400 + (second t + minute t * 60 + hour t * 3600)) * 1000000
  + microsecond t.

Definition digit (n : Z) : ascii := ascii_of_N (Z.to_N (48 + n mod 10)).

(** ["%0<w>d" % n] for [0 <= n < 10^w]. *)
Fixpoint zero_padded (w : nat) (n : Z) : string :=
  match w with
  | O => EmptyString
  | S w' => zero_padded w' (n / 10) ++ String (digit n) EmptyString
  end.

(** [t.isoformat()], with the default separator and [timespec='auto']. *)
Definition isoformat (t : datetime) : string :=
  zero_padded 4 (year t) ++ "-" ++ zero_padded 2 (month t) ++ "-"
  ++ zero_padded 2 (day t) ++ "T" ++ zero_padded 2 (hour t) ++ ":"
  ++ zero_padded 2 (minute t) ++ ":" ++ zero_padded 2 (second t)
  ++ (if microsecond t =? 0 then "" else "." ++ zero_padded 6 (microsecond t)).

(** ** Process state and requests *)

(** One element of [contact_requests]: the dict
    [{'ip': ..., 'time': ..., 'email': ...}].  [remote_addr] may be
    [None]. *)
Record rate_entry : Type := mkentry {
  entry_ip : option string;
  entry_time : datetime;
  entry_email : string
}.

(** What [contact_submissions.json] is on disk:
    - no such file;
    - a file whose text is not a JSON document, on which [json.load] raises
      JSONDecodeError (an empty file, a dump cut short);
    - the text of a JSON document;
    - a file on which reading or decoding raises another exception [e]:
      UnicodeDecodeError on bytes that are not text in the encoding of
      [open], RecursionError on nesting deeper than the recursion limit,
      ValueError on an integer with more digits than [int] converts. *)
Inductive storage : Type :=
| Absent
| Undecodable
| Holds (doc : json)
| Unloadable (e : exn).

Record world : Type := mkworld {
  contact_requests : list rate_entry;
  submissions_file : storage;
  CONTACT_INFO : json
}.

(** What the disk does during one request. *)
Inductive fault : Type :=
| NoFault
| OpenReadFails      (* [open(filename, 'r')] raises OSError *)
| OpenWriteFails     (* [open(filename, 'w')] raises OSError *)
| DumpFails          (* [json.dump] raises OSError part-way *)
| StaticMissing.     (* [index.html] is not in the static folder *)

(** What one HTTP request brings.  [now_check], [now_track] and
    [now_stamp] are the readings of [datetime.now()] at lines 33, 101 and
    114 (the health check reads [now_stamp]). *)
Record request : Type := mkrequest {
  remote_addr : option string;
  get_json : outcome json;
  user_agent : option string;
  now_check : datetime;
  now_track : datetime;
  now_stamp : datetime;
  disk : fault
}.

Inductive payload : Type :=
| Json (doc : json)
| Static (directory filename : string)
| ErrorPage (code : Z).   (* the page werkzeug makes of an HTTPException *)

Record response : Type := mkresponse {
  body : payload;
  status : Z
}.

Definition jsonify (doc : json) : payload := Json doc.

(** [return jsonify(...)] without a status is a 200. *)
Definition OK : Z := 200.

(** ** The monad *)

(** A computation reads and writes the process state and either returns or
    raises; what it wrote before raising stays written. *)
Definition M (A : Type) : Type := world -> outcome A * world.

Definition ret {A} (a : A) : M A := fun w => (Ret a, w).
Definition raise {A} (e : exn) : M A := fun w => (Exc e, w).
Definition lift {A} (o : outcome A) : M A := fun w => (o, w).

Definition bind {A B} (m : M A) (k : A -> M B) : M B :=
  fun w =>
    match m w with
    | (Ret a, w') => k a w'
    | (Exc e, w') => (Exc e, w')
    end.

(** [try: m  except <those of catches>: handler]. *)
Definition try_except {A} (m : M A) (catches : exn -> bool) (handler : M A)
  : M A :=
  fun w =>
    match m w with
    | (Ret a, w') => (Ret a, w')
    | (Exc e, w') => if catches e then handler w' else (Exc e, w')
    end.

Definition Exception (e : exn) : bool := true.

Notation "x <- m ;; k" := (bind m (fun x => k))
  (at level 61, m at next level, right associativity).
Notation "m ;;; k" := (bind m (fun _ => k))
  (at level 61, right associativity).

Definition get_contact_requests : M (list rate_entry) :=
  fun w => (Ret (contact_requests w), w).

Definition set_contact_requests (l : list rate_entry) : M unit :=
  fun w => (Ret tt, mkworld l (submissions_file w) (CONTACT_INFO w)).

Definition read_file : M storage := fun w => (Ret (submissions_file w), w).

Definition write_file (f : storage) : M unit :=
  fun w => (Ret tt, mkworld (contact_requests w) f (CONTACT_INFO w)).

Definition read_CONTACT_INFO : M json := fun w => (Ret (CONTACT_INFO w), w).

(** ** File primitives *)

Definition path_exists : M bool :=
  f <- read_file ;;
  ret (match f with Absent => false | _ => true end).

(** [with open(filename, 'r') as f: json.load(f)]. *)
Definition open_and_load (io : fault) : M json :=
  f <- read_file ;;
  match io, f with
  | OpenReadFails, _ => raise OSError
  | _, Absent => raise FileNotFoundError
  | _, Undecodable => raise JSONDecodeError
  | _, Unloadable e => raise e
  | _, Holds doc => ret doc
  end.

(** [with open(filename, 'w') as f: json.dump(doc, f, ...)].  Opening for
    writing empties the file; a dump that stops part-way leaves a prefix of
    the text, which is not a JSON document. *)
Definition open_and_dump (io : fault) (doc : json) : M unit :=
  match io with
  | OpenWriteFails => raise OSError
  | DumpFails => write_file Undecodable ;;; raise OSError
  | _ => write_file (Holds doc)
  end.

(** [existing_data.append(data)]: only a list has the method. *)
Definition append (existing_data data : json) : outcome (list json) :=
  match existing_data with
  | JArr items => Ret (items ++ [data])%list
  | _ => Exc AttributeError
  end.

(** [len(x)]. *)
Definition len (x : json) : outcome Z :=
  match x with
  | JArr items => Ret (Z.of_nat (List.length items))
  | JObj fields => Ret (Z.of_nat (List.length fields))
  | JStr s => Ret (Z.of_nat (String.length s))
  | _ => Exc TypeError
  end.

(** [items[-n:]] for [n > 0]. *)
Definition last_n {A} (n : nat) (items : list A) : list A :=
  skipn (List.length items - n) items.

(** ** The program *)

Definition CONTACT_INFO_literal : json :=
  JObj [("phone", JStr "+254710347138");
        ("email", JStr "rodahkageha21@gmail.com");
        ("service_areas",
         JArr [JStr "Nairobi"; JStr "Mombasa"; JStr "Kisumu"; JStr "Nakuru";
               JStr "Eldoret"]);
        ("availability",
         JObj [("weekdays", JStr "8:00 AM - 6:00 PM");
               ("saturday", JStr "9:00 AM - 4:00 PM");
               ("sunday", JStr "By Appointment")])].

(** The state of a fresh process: the two module-level assignments, and
    whatever the disk holds. *)
Definition start (f : storage) : world := mkworld [] f CONTACT_INFO_literal.

Definition failure (message : string) : json :=
  JObj [("success", JBool false); ("message", JStr message)].

Definition ip_eqb (a b : option string) : bool :=
  match a, b with
  | Some x, Some y => String.eqb x y
  | None, None => true
  | _, _ => false
  end.

(** The test of line 38 on one entry. *)
Definition within_hour (now : datetime) (req : rate_entry) : bool :=
  seconds (datetime_sub now (entry_time req)) <? 3600.

Definition too_many : response :=
  mkresponse
    (jsonify (failure "Too many requests. Please try again later.")) 429.

(** The decorator: [rate_limit(max_per_hour)(f)] is [decorated_function]. *)
Definition rate_limit (max_per_hour : nat) (f : request -> M response)
  : request -> M response :=
  fun rq =>
    let now := now_check rq in
    old <- get_contact_requests ;;
    set_contact_requests (filter (within_hour now) old) ;;;
    let client_ip := remote_addr rq in
    current <- get_contact_requests ;;
    let ip_requests :=
      filter (fun req => ip_eqb (entry_ip req) client_ip) current in
    if (max_per_hour <=? List.length ip_requests)%nat
    then ret too_many
    else f rq.

(** [send_from_directory(directory, filename)]: the file as the body of a
    response, or NotFound, a 404 HTTPException, when it is not there. *)
Definition send_from_directory (io : fault) (directory filename : string)
  : M payload :=
  match io with
  | StaticMissing => raise (HTTPException 404)
  | _ => ret (Static directory filename)
  end.

Definition home (rq : request) : M response :=
  page <- send_from_directory (disk rq) "." "index.html" ;;
  ret (mkresponse page OK).

Definition save_contact_submission (io : fault) (data : json) : M unit :=
  try_except
    (present <- path_exists ;;
     existing_data <-
       (if present
        then try_except (open_and_load io)
               (fun e => match e with
                         | JSONDecodeError | FileNotFoundError => true
                         | _ => false
                         end)
               (ret (JArr []))
        else ret (JArr [])) ;;
     existing_data <- lift (append existing_data data) ;;
     let existing_data :=
       if (100 <? List.length existing_data)%nat
       then last_n 100 existing_data
       else existing_data in
     open_and_dump io (JArr existing_data))
    Exception
    (ret tt).

Definition json_of_ip (ip : option string) : json :=
  match ip with
  | Some a => JStr a
  | None => JNull
  end.

(** [data.get(key, '').strip()]. *)
Definition get_stripped (data : json) (key : string) : outcome string :=
  match dict_get data key (JStr "") with
  | Ret v => strip v
  | Exc e => Exc e
  end.

(** The five responses of [submit_contact], lines 69, 86, 93, 121 and 128. *)
Definition no_data : response :=
  mkresponse (jsonify (failure "No data received")) 400.

Definition missing_fields : response :=
  mkresponse (jsonify (failure "Please fill in all required fields.")) 400.

Definition invalid_email : response :=
  mkresponse (jsonify (failure "Please enter a valid email address.")) 400.

Definition thank_you : response :=
  mkresponse
    (jsonify
       (JObj [("success", JBool true);
              ("message",
               JStr "Thank you for your message! We will contact you soon.")]))
    OK.

Definition sending_error : response :=
  mkresponse
    (jsonify
       (failure "There was an error sending your message. Please try again or contact us directly."))
    500.

(** The record of lines 106-116. *)
Definition submission (rq : request) (name email phone : string)
    (service : json) (message : string) (contact_method : json) : json :=
  JObj [("name", JStr name);
        ("email", JStr email);
        ("phone", JStr phone);
        ("service", service);
        ("message", JStr message);
        ("contact_method", contact_method);
        ("ip", json_of_ip (remote_addr rq));
        ("timestamp", JStr (isoformat (now_stamp rq)));
        ("user_agent",
         JStr (match user_agent rq with
               | Some ua => ua
               | None => ""
               end))].

(** The function the [def] of line 62 makes, before decoration. *)
Definition submit_contact_inner (rq : request) : M response :=
  try_except
    (data <- lift (get_json rq) ;;
     if negb (truthy data)
     then ret no_data
     else
       name <- lift (get_stripped data "name") ;;
       email <- lift (get_stripped data "email") ;;
       phone <- lift (get_stripped data "phone") ;;
       service <- lift (dict_get data "service" (JStr "")) ;;
       message <- lift (get_stripped data "message") ;;
       contact_method <- lift (dict_get data "contact_method" (JStr "phone")) ;;
       if negb (forallb truthy [JStr name; JStr email; JStr message; service])
       then ret missing_fields
       else if negb (contains "@" email) || negb (contains "." email)
       then ret invalid_email
       else
         old <- get_contact_requests ;;
         set_contact_requests
           (old ++ [mkentry (remote_addr rq) (now_track rq) email])%list ;;;
         save_contact_submission (disk rq)
           (submission rq name email phone service message contact_method) ;;;
         ret thank_you)
    Exception
    (ret sending_error).

(** What the name [submit_contact] is bound to: line 61 applied to the
    function of line 62. *)
Definition submit_contact : request -> M response :=
  rate_limit 5 submit_contact_inner.

Definition get_contact_info (rq : request) : M response :=
  info <- read_CONTACT_INFO ;;
  ret (mkresponse (jsonify info) OK).

Definition health_check (rq : request) : M response :=
  info <- read_CONTACT_INFO ;;
  ret (mkresponse
         (jsonify (JObj [("status", JStr "healthy");
                         ("timestamp", JStr (isoformat (now_stamp rq)));
                         ("service", JStr "Fash Rodah Portfolio");
                         ("contact_info", info)]))
         OK).

Definition get_submissions (rq : request) : M response :=
  try_except
    (present <- path_exists ;;
     if present
     then
       data <- open_and_load (disk rq) ;;
       count <- lift (len data) ;;
       ret (mkresponse
              (jsonify (JObj [("success", JBool true);
                              ("count", JNum count);
                              ("submissions", data)]))
              OK)
     else
       ret (mkresponse
              (jsonify (JObj [("success", JBool true);
                              ("count", JNum 0);
                              ("submissions", JArr [])]))
              OK))
    Exception
    (ret (mkresponse (jsonify (failure "Error reading submissions")) 500)).

Definition page_not_found (rq : request) : M response :=
  page <- send_from_directory (disk rq) "." "index.html" ;;
  ret (mkresponse page 404).

Definition internal_server_error : response :=
  mkresponse (jsonify (failure "Internal server error")) 500.

Definition too_many_requests (rq : request) : M response :=
  ret (mkresponse
         (jsonify (failure "Too many requests. Please try again later."))
         429).

(** ** The server *)

(** The view function the URL map selects for a request, or none. *)
Inductive endpoint : Type :=
| GET_home
| POST_submit
| GET_contact_info
| GET_health
| GET_submissions
| no_route.

(** Dispatching: a URL that matches no rule raises NotFound. *)
Definition view (ep : endpoint) : request -> M response :=
  match ep with
  | GET_home => home
  | POST_submit => submit_contact
  | GET_contact_info => get_contact_info
  | GET_health => health_check
  | GET_submissions => get_submissions
  | no_route => fun _ => raise (HTTPException 404)
  end.

(** What Flask does with an exception that leaves a view: an HTTPException
    goes to the handler registered for its code (lines 202, 207, 216), or
    becomes its own page when there is none; any other exception is a
    500 (the server is not in debug mode). *)
Definition handle_user_exception (e : exn) (rq : request) : M response :=
  match e with
  | HTTPException code =>
      if code =? 404 then page_not_found rq
      else if code =? 429 then too_many_requests rq
      else if code =? 500 then ret internal_server_error
      else ret (mkresponse (ErrorPage code) code)
  | _ => ret internal_server_error
  end.

(** One request: the view runs; an exception that leaves it is handled,
    and an exception that leaves its handler reaches the 500 handler of
    line 207. *)
Definition serve (ep : endpoint) (rq : request) (w : world)
  : response * world :=
  match view ep rq w with
  | (Ret r, w') => (r, w')
  | (Exc e, w') =>
      match handle_user_exception e rq w' with
      | (Ret r, w'') => (r, w'')
      | (Exc _, w'') => (internal_server_error, w'')
      end
  end.

(** A sequence of requests, one after the other. *)
Fixpoint serve_all (w : world) (reqs : list (endpoint * request))
  : list response * world :=
  match reqs with
  | [] => ([], w)
  | (ep, rq) :: rest =>
      let (r, w') := serve ep rq w in
      let (rs, w'') := serve_all w' rest in
      (r :: rs, w'')
  end.

(** * Vocabulary of the statements *)

(** One hour and one day, in microseconds. *)
Definition HOUR : Z := 3600000000.
Definition DAY : Z := 86400000000.

(** The age of a reading [t] at [now], in microseconds. *)
Definition age (now t : datetime) : Z := micros now - micros t.

(** The state [w] with another file, another list, and a request with
    another behaviour of the disk. *)
Definition with_file (w : world) (f : storage) : world :=
  mkworld (contact_requests w) f (CONTACT_INFO w).

Definition with_requests (w : world) (l : list rate_entry) : world :=
  mkworld l (submissions_file w) (CONTACT_INFO w).

(** The records a file holds: the elements of the array it decodes to. *)
Definition stored_records (f : storage) : list json :=
  match f with
  | Holds (JArr items) => items
  | _ => []
  end.

(** Line 151-152 on a list. *)
Definition capped (items : list json) : list json :=
  if (100 <? List.length items)%nat then last_n 100 items else items.

(** The list [contact_requests] after line 37-38. *)
Definition pruned (rq : request) (w : world) : list rate_entry :=
  filter (within_hour (now_check rq)) (contact_requests w).

(** The list [ip_requests] of line 42-43. *)
Definition ip_requests (rq : request) (w : world) : list rate_entry :=
  filter (fun req => ip_eqb (entry_ip req) (remote_addr rq)) (pruned rq w).

(** How many elements of [l] pass [p]. *)
Definition count {A} (p : A -> bool) (l : list A) : nat :=
  List.length (filter p l).

Definition is_submit (ep : endpoint) : bool :=
  match ep with
  | POST_submit => true
  | _ => false
  end.

(** The readings of the clock that reach the rate limiter, in the order the
    run makes them: the check of line 33 and the tracking of line 101 of
    each [POST /submit]. *)
Definition timeline (reqs : list (endpoint * request)) : list Z :=
  flat_map
    (fun x => if is_submit (fst x)
              then [micros (now_check (snd x)); micros (now_track (snd x))]
              else [])
    reqs.

(** The clock does not go back. *)
Fixpoint nondecreasing (ts : list Z) : Prop :=
  match ts with
  | [] => True
  | t :: rest =>
      match rest with
      | [] => True
      | t' :: _ => t <= t'
      end /\ nondecreasing rest
  end.

(** An accepted submission of [ip], tracked less than an hour before
    [now]: a [POST /submit] of the run, from [ip], answered 200. *)
Definition accepted_within_hour (ip : option string) (now : datetime)
    (x : (endpoint * request) * response) : bool :=
  is_submit (fst (fst x))
  && ip_eqb (remote_addr (snd (fst x))) ip
  && (status (snd x) =? 200)
  && (age now (now_track (snd (fst x))) <? HOUR).

(** The requests of a run, each with its response. *)
Definition transcript (w : world) (reqs : list (endpoint * request))
  : list ((endpoint * request) * response) :=
  combine reqs (fst (serve_all w reqs)).

(** An entry of [ip] younger than an hour at [now] and not younger than
    [lo]. *)
Definition live (ip : option string) (now : datetime) (lo : Z)
    (e : rate_entry) : bool :=
  ip_eqb (entry_ip e) ip
  && (age now (entry_time e) <? HOUR)
  && (micros (entry_time e) <=? lo).

(** Successive calls of the store, each with what the disk does then. *)
Fixpoint write_all (writes : list (fault * json)) (w : world) : world :=
  match writes with
  | [] => w
  | (io, data) :: rest =>
      write_all rest (snd (save_contact_submission io data w))
  end.

Definition with_disk (rq : request) (io : fault) : request :=
  mkrequest (remote_addr rq) (get_json rq) (user_agent rq) (now_check rq)
    (now_track rq) (now_stamp rq) io.

(** The outcome is an exception. *)
Definition raises {A} (o : outcome A) : bool :=
  match o with
  | Ret _ => false
  | Exc _ => true
  end.

(** An exception at lines 66-80: [get_json] raises, or the body is a true
    value that is not a dict, or one of the four stripped fields is not a
    str. *)
Definition handler_raises (rq : request) : bool :=
  match get_json rq with
  | Exc _ => true
  | Ret data =>
      truthy data
      && (raises (get_stripped data "name")
          || raises (get_stripped data "email")
          || raises (get_stripped data "phone")
          || raises (dict_get data "service" (JStr ""))
          || raises (get_stripped data "message")
          || raises (dict_get data "contact_method" (JStr "phone")))
  end.

(** The request passes the test of line 45. *)
Definition admitted (rq : request) (w : world) : Prop :=
  (List.length (ip_requests rq w) < 5)%nat.

(** What lines 75-79 read from a dict whose text fields are strings. *)
Definition parsed (data : json) (name email phone : string) (service : json)
    (message : string) : Prop :=
  get_stripped data "name" = Ret name
  /\ get_stripped data "email" = Ret email
  /\ get_stripped data "phone" = Ret phone
  /\ dict_get data "service" (JStr "") = Ret service
  /\ get_stripped data "message" = Ret message.

(** The entries of one address. *)
Definition from_ip (ip : option string) (e : rate_entry) : bool :=
  ip_eqb (entry_ip e) ip.

(** A file the store can write on top of: none, one whose text is not a
    JSON document (JSONDecodeError), or one that decodes to an array. *)
Definition usable (f : storage) : Prop :=
  match f with
  | Absent | Undecodable | Holds (JArr _) => True
  | _ => False
  end.

Definition is_array (doc : json) : bool :=
  match doc with
  | JArr _ => true
  | _ => false
  end.

(** Every character of [s] is white space. *)
Fixpoint all_space (s : string) : bool :=
  match s with
  | EmptyString => true
  | String c rest => isspace c && all_space rest
  end.

(** The two responses of [get_submissions], lines 184 and 197. *)
Definition listing (count : Z) (data : json) : response :=
  mkresponse
    (jsonify (JObj [("success", JBool true);
                    ("count", JNum count);
                    ("submissions", data)]))
    OK.

Definition reading_error : response :=
  mkresponse (jsonify (failure "Error reading submissions")) 500.

(** A [POST /submit] of the run, from [ip], answered 200. *)
Definition accepted_from (ip : option string)
    (x : (endpoint * request) * response) : bool :=
  is_submit (fst (fst x))
  && ip_eqb (remote_addr (snd (fst x))) ip
  && (status (snd x) =? 200).

(** ** Sample requests *)

Module Sample.

Definition noon : datetime := mkdatetime 2024 1 1 12 0 0 0.

Definition at_time (h m s : Z) : datetime := mkdatetime 2024 1 1 h m s 0.

Definition ann_form : json :=
  JObj [("name", JStr " Ann ");
        ("email", JStr "ann@example.org");
        ("service", JStr "bridal");
        ("message", JStr "Are you free in June?")].

(** A request from 10.0.0.1 whose three clock readings are [t]. *)
Definition post (data : json) (t : datetime) : request :=
  mkrequest (Some "10.0.0.1") (Ret data) (Some "curl/8.0") t t t NoFault.

Definition five_posts : list (endpoint * request) :=
  [(POST_submit, post ann_form (at_time 12 0 0));
   (POST_submit, post ann_form (at_time 12 0 1));
   (GET_health, post JNull (at_time 12 0 1));
   (POST_submit, post ann_form (at_time 12 0 2));
   (POST_submit, post ann_form (at_time 12 0 3));
   (GET_submissions, post JNull (at_time 12 0 3));
   (POST_submit, post ann_form (at_time 12 0 4))].

Definition ann_entry (t : datetime) : rate_entry :=
  mkentry (Some "10.0.0.1") t "ann@example.org".

Definition five_entries (t : datetime) : list rate_entry :=
  [ann_entry t; ann_entry t; ann_entry t; ann_entry t; ann_entry t].

End Sample.

(** * Properties *)

(** ** Time *)

Lemma seconds_of_sub (a b : datetime) :
  seconds (datetime_sub a b) = (age a b mod DAY) / 1000000.
Proof.
  unfold datetime_sub, new_timedelta, age, micros, DAY; cbn [seconds].
  do 2 f_equal. ring.
Qed.

Lemma within_hour_age (now : datetime) (req : rate_entry) :
  within_hour now req = (age now (entry_time req) mod DAY <? HOUR).
Proof.
  unfold within_hour. rewrite seconds_of_sub.
  set (r := age now (entry_time req) mod DAY).
  assert (0 <= r < DAY) by (apply Z.mod_pos_bound; unfold DAY; lia).
  unfold HOUR.
  destruct (Z.ltb_spec (r / 1000000) 3600) as [Hlt | Hge];
    destruct (Z.ltb_spec r 3600000000) as [Hlt' | Hge']; try reflexivity.
  - exfalso.
    assert (3600 <= r / 1000000) by (apply Z.div_le_lower_bound; lia). lia.
  - exfalso.
    assert (r / 1000000 < 3600) by (apply Z.div_lt_upper_bound; lia). lia.
Qed.

(** Within the first day, the test of line 38 is the test on the age. *)
Lemma within_hour_first_day (now : datetime) (req : rate_entry) :
  0 <= age now (entry_time req) < DAY ->
  within_hour now req = (age now (entry_time req) <? HOUR).
Proof.
  intros H. rewrite within_hour_age, Z.mod_small by exact H. reflexivity.
Qed.

Lemma within_hour_recent (now : datetime) (req : rate_entry) :
  0 <= age now (entry_time req) < HOUR -> within_hour now req = true.
Proof.
  intros H. rewrite within_hour_first_day by (unfold HOUR, DAY in *; lia).
  apply Z.ltb_lt. lia.
Qed.

(** ** The submission store *)

Lemma capped_last_n (items : list json) : capped items = last_n 100 items.
Proof.
  unfold capped, last_n.
  destruct (Nat.ltb_spec 100 (List.length items)) as [H | H]; [reflexivity |].
  replace (List.length items - 100)%nat with 0%nat by lia. reflexivity.
Qed.

Lemma last_n_length {A} (n : nat) (items : list A) :
  (List.length (last_n n items) <= n)%nat.
Proof. unfold last_n. rewrite length_skipn. lia. Qed.

(** The store never raises, and touches nothing but the file. *)
Lemma save_frame (io : fault) (data : json) (w : world) :
  exists f', save_contact_submission io data w = (Ret tt, with_file w f').
Proof.
  destruct w as [l f ci].
  destruct io; destruct f as [| | doc | e]; try destruct doc;
    try destruct e; cbn; eexists; reflexivity.
Qed.

(** A successful write on top of a stored array. *)
Lemma save_on_array (data : json) (w : world) (items : list json) :
  submissions_file w = Holds (JArr items) ->
  save_contact_submission NoFault data w
  = (Ret tt, with_file w (Holds (JArr (capped (items ++ [data]))))).
Proof.
  destruct w as [l f ci]; cbn [submissions_file]; intros ->. reflexivity.
Qed.

(** A successful write when there is no file, or one whose text is not a
    JSON document. *)
Lemma save_on_nothing (data : json) (w : world) :
  submissions_file w = Absent \/ submissions_file w = Undecodable ->
  save_contact_submission NoFault data w
  = (Ret tt, with_file w (Holds (JArr [data]))).
Proof.
  destruct w as [l f ci]; cbn [submissions_file]; intros [-> | ->];
    reflexivity.
Qed.

(** Whatever the disk does, a write leaves the file as it was, or
    with a text that is not a JSON document, or holding the capped array. *)
Lemma save_file_cases (io : fault) (data : json) (w : world) :
  let f' := submissions_file (snd (save_contact_submission io data w)) in
  f' = submissions_file w \/ f' = Undecodable
  \/ exists items, f' = Holds (JArr (capped items)).
Proof.
  destruct w as [l f ci].
  destruct io; destruct f as [| | doc | e]; try destruct doc;
    try destruct e; cbn;
    try (left; reflexivity); try (right; left; reflexivity);
    right; right;
    first [ exists [data]; reflexivity
          | exists (items ++ [data])%list; reflexivity ].
Qed.

Lemma save_keeps_cap (io : fault) (data : json) (w : world) :
  (List.length (stored_records (submissions_file w)) <= 100)%nat ->
  (List.length
     (stored_records
        (submissions_file (snd (save_contact_submission io data w))))
   <= 100)%nat.
Proof.
  intros H.
  destruct (save_file_cases io data w) as [E | [E | [items E]]]; rewrite E.
  - exact H.
  - cbn. lia.
  - cbn [stored_records]. rewrite capped_last_n. apply last_n_length.
Qed.

(** ** The handler of [/submit] *)

Lemma rate_limit_unfold (n : nat) (f : request -> M response)
    (rq : request) (w : world) :
  rate_limit n f rq w
  = if (n <=? List.length (ip_requests rq w))%nat
    then (Ret too_many, with_requests w (pruned rq w))
    else f rq (with_requests w (pruned rq w)).
Proof.
  unfold rate_limit, bind, get_contact_requests, set_contact_requests, ret,
    ip_requests, pruned, with_requests; cbn.
  destruct (_ <=? _)%nat; reflexivity.
Qed.

(** The undecorated handler always returns.  Either it answers 400 or 500
    and leaves the state alone, or it answers 200, having appended one entry
    for the caller and called the store on one record. *)
Lemma submit_contact_inner_cases (rq : request) (w : world) :
  (exists r,
      submit_contact_inner rq w = (Ret r, w)
      /\ (r = no_data \/ r = missing_fields \/ r = invalid_email
          \/ r = sending_error))
  \/ (exists email data,
         submit_contact_inner rq w
         = (Ret thank_you,
            snd (save_contact_submission (disk rq) data
                   (with_requests w
                      (contact_requests w
                       ++ [mkentry (remote_addr rq) (now_track rq) email]))))).
Proof.
  unfold submit_contact_inner, try_except, bind, lift.
  destruct (get_json rq) as [data | e];
    [| left; eexists; split; [reflexivity | tauto]].
  destruct (truthy data); cbn [negb];
    [| left; eexists; split; [reflexivity | tauto]].
  destruct (get_stripped data "name") as [name | e];
    [| left; eexists; split; [reflexivity | tauto]].
  destruct (get_stripped data "email") as [email | e];
    [| left; eexists; split; [reflexivity | tauto]].
  destruct (get_stripped data "phone") as [phone | e];
    [| left; eexists; split; [reflexivity | tauto]].
  destruct (dict_get data "service" (JStr "")) as [service | e];
    [| left; eexists; split; [reflexivity | tauto]].
  destruct (get_stripped data "message") as [message | e];
    [| left; eexists; split; [reflexivity | tauto]].
  destruct (dict_get data "contact_method" (JStr "phone"))
    as [contact_method | e];
    [| left; eexists; split; [reflexivity | tauto]].
  destruct (negb (forallb truthy _));
    [left; eexists; split; [reflexivity | tauto] |].
  destruct (negb (contains "@" email) || negb (contains "." email));
    [left; eexists; split; [reflexivity | tauto] |].
  right. exists email.
  exists (submission rq name email phone service message contact_method).
  unfold get_contact_requests, set_contact_requests, ret.
  match goal with
  | |- context [save_contact_submission ?io ?d ?w1] =>
      change w1
        with (with_requests w
                (contact_requests w
                 ++ [mkentry (remote_addr rq) (now_track rq) email]));
      destruct (save_frame io d
                  (with_requests w
                     (contact_requests w
                      ++ [mkentry (remote_addr rq) (now_track rq) email])))
        as [f' E]; rewrite E
  end.
  reflexivity.
Qed.

(** One [POST /submit] through the decorator: it is rejected and the state
    after it is the state before it with the list pruned, or it is accepted
    and the store is called on the pruned list with one entry more. *)
Lemma serve_submit_store (rq : request) (w : world) :
  (exists r,
      serve POST_submit rq w = (r, with_requests w (pruned rq w))
      /\ (r = too_many \/ r = no_data \/ r = missing_fields
          \/ r = invalid_email \/ r = sending_error))
  \/ (exists email data,
         serve POST_submit rq w
         = (thank_you,
            snd (save_contact_submission (disk rq) data
                   (with_requests w
                      (pruned rq w
                       ++ [mkentry (remote_addr rq) (now_track rq) email]))))).
Proof.
  unfold serve, view, submit_contact. rewrite rate_limit_unfold.
  destruct (5 <=? List.length (ip_requests rq w))%nat.
  - left. exists too_many. split; [reflexivity | tauto].
  - destruct (submit_contact_inner_cases rq (with_requests w (pruned rq w)))
      as [(r & E & Hr) | (email & data & E)]; rewrite E.
    + left. exists r. split; [reflexivity | tauto].
    + right. exists email, data. reflexivity.
Qed.

(** The same, with the store seen as a change of the file alone. *)
Lemma serve_submit_cases (rq : request) (w : world) :
  (exists r,
      serve POST_submit rq w = (r, with_requests w (pruned rq w))
      /\ (r = too_many \/ r = no_data \/ r = missing_fields
          \/ r = invalid_email \/ r = sending_error))
  \/ (exists email f',
         serve POST_submit rq w
         = (thank_you,
            mkworld
              (pruned rq w
               ++ [mkentry (remote_addr rq) (now_track rq) email])%list
              f' (CONTACT_INFO w))).
Proof.
  destruct (serve_submit_store rq w) as [H | (email & data & E)];
    [left; exact H | right].
  exists email.
  destruct (save_frame (disk rq) data
              (with_requests w
                 (pruned rq w
                  ++ [mkentry (remote_addr rq) (now_track rq) email])))
    as [f' E'].
  exists f'. rewrite E, E'. reflexivity.
Qed.

Lemma status_of_rejection (r : response) :
  r = too_many \/ r = no_data \/ r = missing_fields \/ r = invalid_email
  \/ r = sending_error ->
  status r = 429 \/ status r = 400 \/ status r = 500.
Proof. intros [-> | [-> | [-> | [-> | ->]]]]; cbn; tauto. Qed.

(** ** Runs of the server *)

Lemma serve_all_cons (w : world) (ep : endpoint) (rq : request)
    (rest : list (endpoint * request)) :
  serve_all w ((ep, rq) :: rest)
  = (fst (serve ep rq w) :: fst (serve_all (snd (serve ep rq w)) rest),
     snd (serve_all (snd (serve ep rq w)) rest)).
Proof.
  cbn [serve_all]. destruct (serve ep rq w) as [r w1]; cbn [fst snd].
  destruct (serve_all w1 rest); reflexivity.
Qed.

(** Only [/submit] writes the state. *)
Lemma serve_other (ep : endpoint) (rq : request) (w : world) :
  ep <> POST_submit -> snd (serve ep rq w) = w.
Proof.
  intros Hne. destruct w as [l f ci].
  destruct ep; try congruence.
  - unfold serve, view, home, handle_user_exception, page_not_found,
      send_from_directory, bind, ret, raise; cbn.
    destruct (disk rq); reflexivity.
  - reflexivity.
  - reflexivity.
  - unfold serve, view, get_submissions, try_except, bind, path_exists,
      open_and_load, read_file, ret, lift, raise; cbn.
    destruct f as [| | doc | e]; destruct (disk rq); try reflexivity;
      destruct doc; reflexivity.
  - unfold serve, view, handle_user_exception, page_not_found,
      send_from_directory, bind, ret, raise; cbn.
    destruct (disk rq); reflexivity.
Qed.

(** ** Counting entries *)

Lemma count_app {A} (p : A -> bool) (l1 l2 : list A) :
  count p (l1 ++ l2) = (count p l1 + count p l2)%nat.
Proof. unfold count. rewrite filter_app, length_app. reflexivity. Qed.

Lemma count_le {A} (p q : A -> bool) (l : list A) :
  (forall x, p x = true -> q x = true) -> (count p l <= count q l)%nat.
Proof.
  intros Hpq. unfold count.
  induction l as [| x l IH]; cbn; [lia |].
  destruct (p x) eqn:Hp.
  - rewrite (Hpq x Hp). cbn. lia.
  - destruct (q x); cbn; lia.
Qed.

Lemma count_filter {A} (p q : A -> bool) (l : list A) :
  (forall x, p x = true -> q x = true) -> count p (filter q l) = count p l.
Proof.
  intros Hpq. unfold count.
  induction l as [| x l IH]; cbn; [reflexivity |].
  destruct (q x) eqn:Hq; cbn.
  - destruct (p x); cbn; rewrite IH; reflexivity.
  - destruct (p x) eqn:Hp; [rewrite (Hpq x Hp) in Hq; discriminate |].
    exact IH.
Qed.

(** ** The rate limit over a run *)

Lemma live_within_hour (ip : option string) (now : datetime) (lo : Z)
    (check : datetime) (e : rate_entry) :
  lo <= micros check <= micros now ->
  live ip now lo e = true -> within_hour check e = true.
Proof.
  intros Hc H. unfold live in H.
  apply andb_prop in H as [H H3]. apply andb_prop in H as [_ H2].
  apply Z.ltb_lt in H2. apply Z.leb_le in H3.
  apply within_hour_recent. unfold age in *. lia.
Qed.

Lemma live_weaken (ip : option string) (now : datetime) (lo lo' : Z)
    (e : rate_entry) :
  lo <= lo' -> live ip now lo e = true -> live ip now lo' e = true.
Proof.
  intros Hle H. unfold live in *.
  apply andb_prop in H as [H H3]. rewrite H. cbn.
  apply Z.leb_le in H3. apply Z.leb_le. lia.
Qed.

Lemma count_cons {A} (p : A -> bool) (x : A) (l : list A) :
  count p (x :: l) = ((if p x then 1 else 0) + count p l)%nat.
Proof. unfold count. cbn. destruct (p x); reflexivity. Qed.

Lemma transcript_cons (w : world) (ep : endpoint) (rq : request)
    (rest : list (endpoint * request)) :
  transcript w ((ep, rq) :: rest)
  = ((ep, rq), fst (serve ep rq w)) :: transcript (snd (serve ep rq w)) rest.
Proof. unfold transcript. rewrite serve_all_cons. reflexivity. Qed.

Lemma nondecreasing_last (t : Z) (ts : list Z) (hi : Z) :
  nondecreasing (t :: ts ++ [hi]) -> t <= hi.
Proof.
  revert t. induction ts as [| t' ts IH]; intros t [Hle Hrest].
  - exact Hle.
  - specialize (IH t' Hrest). cbn in Hle. lia.
Qed.

Lemma nondecreasing_tail (t : Z) (ts : list Z) :
  nondecreasing (t :: ts) -> nondecreasing ts.
Proof. intros [_ H]. exact H. Qed.

(** Along a run on which the clock does not go back, the entries of [ip]
    younger than an hour at [now] stay in the list, and every accepted
    submission of [ip] adds one. *)
Lemma run_keeps_live (ip : option string) (now : datetime)
    (reqs : list (endpoint * request)) :
  forall (w : world) (lo : Z),
    nondecreasing (lo :: timeline reqs ++ [micros now]) ->
    (count (live ip now lo) (contact_requests w)
     + count (accepted_within_hour ip now) (transcript w reqs)
     <= count (live ip now (micros now))
          (contact_requests (snd (serve_all w reqs))))%nat.
Proof.
  induction reqs as [| [ep rq] rest IH]; intros w lo Hnd.
  - cbn in Hnd. destruct Hnd as [Hle _].
    unfold transcript; cbn [serve_all fst snd combine].
    unfold count at 2; cbn [filter List.length]. rewrite Nat.add_0_r.
    apply count_le. intros e. apply live_weaken. exact Hle.
  - rewrite transcript_cons, serve_all_cons, count_cons. cbn [snd].
    destruct (is_submit ep) eqn:Hep.
    + destruct ep; try discriminate. clear Hep.
      change (timeline ((POST_submit, rq) :: rest))
        with (micros (now_check rq) :: micros (now_track rq) :: timeline rest)
        in Hnd.
      cbn [app] in Hnd. destruct Hnd as [Hlo Hnd].
      pose proof (nondecreasing_last (micros (now_check rq))
                    (micros (now_track rq) :: timeline rest) (micros now) Hnd)
        as Hhi.
      destruct Hnd as [Hct Hnd]. cbn in Hlo, Hct.
      pose proof (nondecreasing_last _ _ _ Hnd) as Hthi.
      specialize (IH (snd (serve POST_submit rq w)) _ Hnd).
      assert (Hkeep :
                (count (live ip now lo) (contact_requests w)
                 <= count (live ip now (micros (now_track rq))) (pruned rq w))%nat).
      { unfold pruned.
        rewrite <- (count_filter (live ip now lo)
                      (within_hour (now_check rq)) (contact_requests w)).
        - apply count_le. intros e. apply live_weaken. lia.
        - intros e. apply live_within_hour. lia. }
      destruct (serve_submit_cases rq w)
        as [(r & E & Hr) | (email & f' & E)]; rewrite E in IH |- *;
        cbn [fst snd] in IH |- *.
      * assert (Hno : accepted_within_hour ip now (POST_submit, rq, r) = false).
        { unfold accepted_within_hour; cbn [fst snd].
          destruct (status_of_rejection r Hr) as [S | [S | S]]; rewrite S;
            cbn; rewrite ?andb_false_r; reflexivity. }
        rewrite Hno. cbn [with_requests contact_requests] in IH. lia.
      * cbn [contact_requests] in IH. rewrite count_app in IH.
        assert (Hnew :
                  ((if accepted_within_hour ip now (POST_submit, rq, thank_you)
                    then 1 else 0)
                   <= count (live ip now (micros (now_track rq)))
                        [mkentry (remote_addr rq) (now_track rq) email])%nat).
        { unfold accepted_within_hour, live, count;
            cbn [fst snd is_submit status thank_you entry_ip entry_time
                 filter andb].
          change (OK =? 200) with true. rewrite andb_true_r.
          rewrite Z.leb_refl, andb_true_r.
          destruct (_ && _); cbn; lia. }
        lia.
    + assert (Hne : ep <> POST_submit) by (intros ->; discriminate).
      assert (Htl : timeline ((ep, rq) :: rest) = timeline rest).
      { unfold timeline; cbn [flat_map fst]. rewrite Hep. reflexivity. }
      rewrite Htl in Hnd.
      rewrite (serve_other ep rq w Hne) in *.
      specialize (IH w lo Hnd).
      assert (Hno : accepted_within_hour ip now (ep, rq, fst (serve ep rq w))
                    = false).
      { unfold accepted_within_hour; cbn [fst snd]. rewrite Hep. reflexivity. }
      rewrite Hno. lia.
Qed.

Lemma nondecreasing_from_head (ts : list Z) (hi : Z) :
  nondecreasing (ts ++ [hi]) -> exists lo, nondecreasing (lo :: ts ++ [hi]).
Proof.
  destruct ts as [| t ts]; intros H.
  - exists hi. cbn. lia.
  - exists t. split; [cbn; lia | exact H].
Qed.

(** ** Claims about the rate limiter *)

(** C1.  After five accepted submissions of one IP, each tracked less than an
    hour before the sixth request of that IP is checked, on a run where the
    clock does not go back, the sixth [POST /submit] gets the 429 with the
    failure envelope whatever its payload is, and the state after it is the
    state before it with the list pruned: the handler did not run, so
    nothing was validated and the file was not written. *)
Theorem sixth_submission_is_rejected (w : world)
    (reqs : list (endpoint * request)) (rq : request) :
  nondecreasing (timeline reqs ++ [micros (now_check rq)]) ->
  (5 <= count (accepted_within_hour (remote_addr rq) (now_check rq))
          (transcript w reqs))%nat ->
  let w5 := snd (serve_all w reqs) in
  serve POST_submit rq w5
  = (mkresponse
       (jsonify (failure "Too many requests. Please try again later.")) 429,
     with_requests w5 (pruned rq w5))
  /\ submissions_file (snd (serve POST_submit rq w5)) = submissions_file w5.
Proof.
  intros Hnd H5 w5.
  assert (E : serve POST_submit rq w5
              = (too_many, with_requests w5 (pruned rq w5))).
  { destruct (nondecreasing_from_head _ _ Hnd) as [lo Hlo].
    pose proof (run_keeps_live (remote_addr rq) (now_check rq) reqs w lo Hlo)
      as Hrun.
    fold w5 in Hrun.
    assert (Hip : (5 <= List.length (ip_requests rq w5))%nat).
    { unfold ip_requests, pruned.
      fold (count (fun req => ip_eqb (entry_ip req) (remote_addr rq))
              (filter (within_hour (now_check rq)) (contact_requests w5))).
      rewrite <- (count_filter
                    (live (remote_addr rq) (now_check rq)
                       (micros (now_check rq)))
                    (within_hour (now_check rq)) (contact_requests w5))
        in Hrun.
      - pose proof (count_le
                      (live (remote_addr rq) (now_check rq)
                         (micros (now_check rq)))
                      (fun req => ip_eqb (entry_ip req) (remote_addr rq))
                      (filter (within_hour (now_check rq))
                         (contact_requests w5))) as Hle.
        assert (Himp : forall e,
                   live (remote_addr rq) (now_check rq)
                     (micros (now_check rq)) e = true ->
                   ip_eqb (entry_ip e) (remote_addr rq) = true).
        { intros e He. unfold live in He.
          apply andb_prop in He as [He _]. apply andb_prop in He as [He _].
          exact He. }
        specialize (Hle Himp). lia.
      - intros e. apply live_within_hour. lia. }
    unfold serve, view, submit_contact. rewrite rate_limit_unfold.
    apply Nat.leb_le in Hip. rewrite Hip. reflexivity. }
  rewrite E. split; reflexivity.
Qed.

Lemma sixth_submission_is_rejected_witness :
  let rq := Sample.post Sample.ann_form (Sample.at_time 12 59 59) in
  let w5 := snd (serve_all (start Absent) Sample.five_posts) in
  serve POST_submit rq w5
  = (mkresponse
       (jsonify (failure "Too many requests. Please try again later.")) 429,
     with_requests w5 (pruned rq w5))
  /\ submissions_file (snd (serve POST_submit rq w5)) = submissions_file w5.
Proof.
  apply (sixth_submission_is_rejected (start Absent) Sample.five_posts
           (Sample.post Sample.ann_form (Sample.at_time 12 59 59))).
  - vm_compute. intuition discriminate.
  - vm_compute. lia.
Defined.

(** Between one hour and one day, an entry is dropped by the pruning. *)
Lemma within_hour_expired_same_day (now : datetime) (req : rate_entry) :
  HOUR <= age now (entry_time req) < DAY -> within_hour now req = false.
Proof.
  intros H. rewrite within_hour_first_day by (unfold HOUR, DAY in *; lia).
  apply Z.ltb_ge. lia.
Qed.

(** [timedelta.seconds] leaves the days out: an entry whose age is a whole
    number of days and less than an hour passes the test of line 38. *)
Lemma within_hour_days_later (now : datetime) (req : rate_entry) (d : Z) :
  d * DAY <= age now (entry_time req) < d * DAY + HOUR ->
  within_hour now req = true.
Proof.
  intros H. rewrite within_hour_age.
  replace (age now (entry_time req))
    with (age now (entry_time req) - d * DAY + d * DAY) by ring.
  rewrite Z.mod_add by (unfold DAY; lia).
  rewrite Z.mod_small by (unfold HOUR, DAY in *; lia).
  apply Z.ltb_lt. lia.
Qed.

(** C2.  The code at the failing input: five submissions are accepted
    between 12:00:00 and 12:00:04 on 1 January; at 12:00:10 on 2 January
    every entry is more than 86400 seconds old, the pruning keeps all five,
    and the sixth submission gets the 429. *)
Theorem day_old_entries_still_count :
  let rq := Sample.post Sample.ann_form (mkdatetime 2024 1 2 12 0 10 0) in
  let w5 := snd (serve_all (start Absent) Sample.five_posts) in
  forallb (fun e => 24 * HOUR <? age (now_check rq) (entry_time e))
    (contact_requests w5) = true
  /\ List.length (contact_requests w5) = 5%nat
  /\ pruned rq w5 = contact_requests w5
  /\ serve POST_submit rq w5 = (too_many, w5).
Proof.
  cbv zeta. repeat split; vm_compute; reflexivity.
Qed.

(** C3, as stated, fails: a submission without a message is answered 400
    and the list of entries is as empty afterwards as it was before. *)
Lemma rejected_submission_is_not_counted :
  let rq :=
    Sample.post
      (JObj [("name", JStr "Ann"); ("email", JStr "ann@example.org");
             ("service", JStr "bridal")])
      Sample.noon in
  status (fst (serve POST_submit rq (start Absent))) = 400
  /\ contact_requests (snd (serve POST_submit rq (start Absent))) = [].
Proof. split; vm_compute; reflexivity. Qed.

(** C3, amended.  A [POST /submit] adds an entry for its IP exactly when it
    is answered 200; when it is answered 400, 429 or 500 the list after it
    is the pruned list. *)
Theorem entry_added_exactly_on_200 (rq : request) (w : world) :
  let r := fst (serve POST_submit rq w) in
  let after := contact_requests (snd (serve POST_submit rq w)) in
  (status r = 200
   /\ exists email,
       after
       = (pruned rq w
          ++ [mkentry (remote_addr rq) (now_track rq) email])%list)
  \/ ((status r = 400 \/ status r = 429 \/ status r = 500)
      /\ after = pruned rq w).
Proof.
  cbv zeta.
  destruct (serve_submit_cases rq w) as [(r & E & Hr) | (email & f' & E)];
    rewrite E; cbn [fst snd].
  - right. split; [| reflexivity].
    destruct (status_of_rejection r Hr) as [S | [S | S]]; tauto.
  - left. split; [reflexivity |]. exists email. reflexivity.
Qed.

(** C10.  A [POST /submit] answered 400 is one of the three rejections of
    the handler; the file after it is the file before it, and the list of
    entries after it is the list before it without the entries the check
    pruned. *)
Theorem rejected_400_changes_nothing_but_pruning (rq : request) (w : world)
    (r : response) (w' : world) :
  serve POST_submit rq w = (r, w') ->
  status r = 400 ->
  (r = no_data \/ r = missing_fields \/ r = invalid_email)
  /\ submissions_file w' = submissions_file w
  /\ contact_requests w'
     = filter (within_hour (now_check rq)) (contact_requests w).
Proof.
  intros E S.
  destruct (serve_submit_cases rq w) as [(r0 & E0 & Hr) | (email & f' & E0)];
    rewrite E0 in E; injection E as <- <-.
  - split; [| split; reflexivity].
    destruct Hr as [-> | [-> | [-> | [-> | ->]]]]; try discriminate; tauto.
  - discriminate.
Qed.

Lemma rejected_400_changes_nothing_but_pruning_witness :
  let rq := Sample.post (JObj [("name", JStr "Ann")])
              (Sample.at_time 14 0 0) in
  let w :=
    mkworld [Sample.ann_entry (Sample.at_time 12 30 0);
             Sample.ann_entry (Sample.at_time 13 30 0)]
      (Holds (JArr [JStr "kept"])) CONTACT_INFO_literal in
  (missing_fields = no_data \/ missing_fields = missing_fields
   \/ missing_fields = invalid_email)
  /\ submissions_file
       (with_requests w [Sample.ann_entry (Sample.at_time 13 30 0)])
     = submissions_file w
  /\ contact_requests
       (with_requests w [Sample.ann_entry (Sample.at_time 13 30 0)])
     = filter (within_hour (now_check rq)) (contact_requests w).
Proof.
  cbv zeta.
  apply (rejected_400_changes_nothing_but_pruning
           (Sample.post (JObj [("name", JStr "Ann")]) (Sample.at_time 14 0 0))
           (mkworld [Sample.ann_entry (Sample.at_time 12 30 0);
                     Sample.ann_entry (Sample.at_time 13 30 0)]
              (Holds (JArr [JStr "kept"])) CONTACT_INFO_literal)
           missing_fields).
  - vm_compute. reflexivity.
  - reflexivity.
Defined.

(** ** Claims about the submission store *)

Lemma last_n_app_last_n {A} (n : nat) (xs ys : list A) :
  last_n n (last_n n xs ++ ys) = last_n n (xs ++ ys).
Proof.
  unfold last_n. rewrite !length_app, length_skipn.
  destruct (Nat.le_gt_cases (List.length xs) n) as [Hle | Hgt].
  - replace (List.length xs - n)%nat with 0%nat by lia.
    cbn [skipn]. rewrite Nat.sub_0_r. reflexivity.
  - rewrite !skipn_app, length_skipn, skipn_skipn.
    f_equal; f_equal; lia.
Qed.

(** Writing [ds] one after the other on a stored array, the disk behaving,
    leaves the last 100 of the array followed by [ds]. *)
Lemma write_all_on_array (ds : list json) :
  forall (w : world) (items : list json),
    submissions_file w = Holds (JArr items) ->
    ds <> [] ->
    submissions_file (write_all (map (pair NoFault) ds) w)
    = Holds (JArr (last_n 100 (items ++ ds))).
Proof.
  induction ds as [| d ds IH]; intros w items Hw Hne; [congruence |].
  cbn [map write_all]. rewrite (save_on_array d w items Hw). cbn [snd].
  rewrite capped_last_n.
  destruct ds as [| d' ds].
  - cbn [map write_all with_file submissions_file]. reflexivity.
  - rewrite (IH _ (last_n 100 (items ++ [d]))); [| reflexivity | discriminate].
    rewrite last_n_app_last_n, <- app_assoc. reflexivity.
Qed.

Lemma serve_keeps_cap (ep : endpoint) (rq : request) (w : world) :
  (List.length (stored_records (submissions_file w)) <= 100)%nat ->
  (List.length (stored_records (submissions_file (snd (serve ep rq w))))
   <= 100)%nat.
Proof.
  intros H.
  destruct ep;
    try (rewrite serve_other by discriminate; exact H).
  destruct (serve_submit_store rq w) as [(r & E & _) | (email & data & E)];
    rewrite E; cbn [snd].
  - exact H.
  - apply save_keeps_cap. exact H.
Qed.

Lemma serve_all_keeps_cap (reqs : list (endpoint * request)) :
  forall w : world,
    (List.length (stored_records (submissions_file w)) <= 100)%nat ->
    (List.length
       (stored_records (submissions_file (snd (serve_all w reqs))))
     <= 100)%nat.
Proof.
  induction reqs as [| [ep rq] rest IH]; intros w H; [exact H |].
  rewrite serve_all_cons; cbn [snd]. apply IH, serve_keeps_cap, H.
Qed.

(** C4.  A server whose file holds at most 100 records holds at most 100
    after any run, whatever the disk does; one write on a stored array
    appends the record and keeps the last 100; and 101 writes, one after
    the other, starting from no file, a file whose text is not a JSON
    document or an empty array,
    leave the last 100 records in the order they were written. *)
Theorem store_keeps_the_last_100 (w : world)
    (reqs : list (endpoint * request)) (items : list json) (data : json)
    (empty : storage) (first : json) (rest : list json) :
  (List.length (stored_records (submissions_file w)) <= 100)%nat ->
  empty = Absent \/ empty = Undecodable \/ empty = Holds (JArr []) ->
  List.length rest = 100%nat ->
  (List.length
     (stored_records (submissions_file (snd (serve_all w reqs))))
   <= 100)%nat
  /\ submissions_file
       (snd (save_contact_submission NoFault data
               (start (Holds (JArr items)))))
     = Holds (JArr (last_n 100 (items ++ [data])))
  /\ submissions_file
       (write_all (map (pair NoFault) (first :: rest)) (start empty))
     = Holds (JArr rest).
Proof.
  intros Hw Hempty Hrest. split; [| split].
  - apply serve_all_keeps_cap, Hw.
  - rewrite (save_on_array data _ items) by reflexivity.
    cbn [snd with_file submissions_file]. rewrite capped_last_n. reflexivity.
  - assert (E : submissions_file
                  (snd (save_contact_submission NoFault first (start empty)))
                = Holds (JArr [first])).
    { destruct Hempty as [-> | [-> | ->]]; reflexivity. }
    cbn [map write_all].
    destruct rest as [| d rest]; [discriminate |].
    rewrite (write_all_on_array (d :: rest) _ [first] E) by discriminate.
    unfold last_n. rewrite length_app.
    match goal with
    | |- context [skipn ?k _] =>
        replace k with 1%nat by (cbn [List.length] in *; lia)
    end.
    reflexivity.
Qed.

Lemma store_keeps_the_last_100_witness :
  let rest := map (fun n => JNum (Z.of_nat n)) (seq 1 100) in
  (List.length
     (stored_records
        (submissions_file
           (snd (serve_all (start Undecodable) Sample.five_posts))))
   <= 100)%nat
  /\ submissions_file
       (snd (save_contact_submission NoFault (JNum 7)
               (start (Holds (JArr [JNum 5; JNum 6])))))
     = Holds (JArr (last_n 100 ([JNum 5; JNum 6] ++ [JNum 7])))
  /\ submissions_file
       (write_all (map (pair NoFault) (JNum 0 :: rest)) (start Absent))
     = Holds (JArr rest).
Proof.
  apply (store_keeps_the_last_100 (start Undecodable) Sample.five_posts
           [JNum 5; JNum 6] (JNum 7) Absent (JNum 0)
           (map (fun n => JNum (Z.of_nat n)) (seq 1 100))).
  - cbn. lia.
  - left. reflexivity.
  - reflexivity.
Defined.

(** C8, as stated, fails: the file holds bytes that are not text, or a
    document nested deeper than the recursion limit.  Loading it raises
    UnicodeDecodeError or RecursionError, line 144 catches neither, the
    except of line 159 gives the write up: the store returns, the file is
    as it was and the new record is nowhere. *)
Lemma unloadable_storage_is_not_tolerated :
  save_contact_submission NoFault (JStr "new")
    (start (Unloadable UnicodeDecodeError))
  = (Ret tt, start (Unloadable UnicodeDecodeError))
  /\ save_contact_submission NoFault (JStr "new")
       (start (Unloadable RecursionError))
     = (Ret tt, start (Unloadable RecursionError)).
Proof. split; reflexivity. Qed.

(** C8, amended.  With no file, or with a file whose text is not a JSON
    document ([json.load] raises JSONDecodeError), a write on a disk that
    behaves succeeds and leaves the array of the new record alone: the state
    it leaves is the one it leaves on a stored empty array. *)
Theorem missing_or_corrupt_storage_counts_as_empty (data : json) (w : world) :
  submissions_file w = Absent \/ submissions_file w = Undecodable ->
  save_contact_submission NoFault data w
  = (Ret tt, with_file w (Holds (JArr [data])))
  /\ save_contact_submission NoFault data w
     = save_contact_submission NoFault data (with_file w (Holds (JArr []))).
Proof.
  intros H. rewrite (save_on_nothing data w H). split; [reflexivity |].
  rewrite (save_on_array data (with_file w (Holds (JArr []))) [])
    by reflexivity.
  reflexivity.
Qed.

Lemma missing_or_corrupt_storage_counts_as_empty_witness :
  save_contact_submission NoFault (JStr "new") (start Undecodable)
  = (Ret tt, with_file (start Undecodable) (Holds (JArr [JStr "new"])))
  /\ save_contact_submission NoFault (JStr "new") (start Undecodable)
     = save_contact_submission NoFault (JStr "new")
         (with_file (start Undecodable) (Holds (JArr []))).
Proof.
  apply (missing_or_corrupt_storage_counts_as_empty (JStr "new")
           (start Undecodable)).
  right. reflexivity.
Defined.

(** ** Claims about the responses of [/submit] *)

Lemma serve_submit_admitted (rq : request) (w : world) :
  admitted rq w ->
  fst (serve POST_submit rq w)
  = match fst (submit_contact_inner rq (with_requests w (pruned rq w))) with
    | Ret r => r
    | Exc _ => internal_server_error
    end.
Proof.
  intros H. unfold serve, view, submit_contact. rewrite rate_limit_unfold.
  apply Nat.leb_gt in H. rewrite H.
  destruct (submit_contact_inner_cases rq (with_requests w (pruned rq w)))
    as [(r & E & _) | (email & data & E)]; rewrite E; reflexivity.
Qed.

Lemma serve_submit_limited (rq : request) (w : world) :
  ~ admitted rq w ->
  serve POST_submit rq w = (too_many, with_requests w (pruned rq w)).
Proof.
  intros H. unfold serve, view, submit_contact. rewrite rate_limit_unfold.
  assert (H' : (5 <=? List.length (ip_requests rq w))%nat = true)
    by (apply Nat.leb_le; unfold admitted in H; lia).
  rewrite H'. reflexivity.
Qed.

(** The response of the handler is decided by the request alone, and it is
    the 500 exactly when an exception is raised at lines 66-80. *)
Lemma submit_contact_inner_response (rq : request) (w : world) :
  exists r,
    fst (submit_contact_inner rq w) = Ret r
    /\ (forall io w', fst (submit_contact_inner (with_disk rq io) w') = Ret r)
    /\ (r = sending_error <-> handler_raises rq = true).
Proof.
  unfold handler_raises, submit_contact_inner, try_except, bind, lift.
  cbn [get_json with_disk].
  destruct (get_json rq) as [data | e];
    [| eexists; split; [reflexivity | split; [reflexivity | tauto]]].
  destruct (truthy data); cbn [negb andb];
    [| eexists; split; [reflexivity |
                        split; [reflexivity | split; discriminate]]].
  destruct (get_stripped data "name") as [name | e]; cbn [raises orb];
    [| eexists; split; [reflexivity | split; [reflexivity | tauto]]].
  destruct (get_stripped data "email") as [email | e]; cbn [raises orb];
    [| eexists; split; [reflexivity | split; [reflexivity | tauto]]].
  destruct (get_stripped data "phone") as [phone | e]; cbn [raises orb];
    [| eexists; split; [reflexivity | split; [reflexivity | tauto]]].
  destruct (dict_get data "service" (JStr "")) as [service | e];
    cbn [raises orb];
    [| eexists; split; [reflexivity | split; [reflexivity | tauto]]].
  destruct (get_stripped data "message") as [message | e]; cbn [raises orb];
    [| eexists; split; [reflexivity | split; [reflexivity | tauto]]].
  destruct (dict_get data "contact_method" (JStr "phone"))
    as [contact_method | e]; cbn [raises orb];
    [| eexists; split; [reflexivity | split; [reflexivity | tauto]]].
  destruct (negb (forallb truthy _));
    [eexists; split; [reflexivity |
                      split; [reflexivity | split; discriminate]] |].
  destruct (negb (contains "@" email) || negb (contains "." email));
    [eexists; split; [reflexivity |
                      split; [reflexivity | split; discriminate]] |].
  exists thank_you.
  unfold get_contact_requests, set_contact_requests, ret.
  split; [| split; [| split; discriminate]].
  - match goal with
    | |- context [save_contact_submission ?io ?d ?w1] =>
        destruct (save_frame io d w1) as [f' E]; rewrite E
    end.
    reflexivity.
  - intros io w'. cbn [remote_addr now_track disk].
    match goal with
    | |- context [save_contact_submission ?io ?d ?w1] =>
        destruct (save_frame io d w1) as [f' E]; rewrite E
    end.
    reflexivity.
Qed.

Lemma admitted_with_disk_file (rq : request) (w : world) (io : fault)
    (f : storage) :
  admitted (with_disk rq io) (with_file w f) <-> admitted rq w.
Proof. reflexivity. Qed.

Lemma submit_response_is_known (rq : request) (w : world) :
  let r := fst (serve POST_submit rq w) in
  r = too_many \/ r = no_data \/ r = missing_fields \/ r = invalid_email
  \/ r = sending_error \/ r = thank_you.
Proof.
  cbv zeta.
  destruct (serve_submit_cases rq w) as [(r & E & Hr) | (email & f' & E)];
    rewrite E; cbn [fst]; tauto.
Qed.

(** C5, as stated, fails: the form is valid and the file cannot be opened
    for writing, or its text is not a JSON document; both times the answer
    is the 200
    with the success envelope.  In the first case the record is lost. *)
Lemma store_failure_is_answered_200 :
  let valid io :=
    mkrequest (Some "10.0.0.1") (Ret Sample.ann_form) None Sample.noon
      Sample.noon Sample.noon io in
  (fst (serve POST_submit (valid OpenWriteFails) (start (Holds (JArr []))))
   = thank_you
   /\ submissions_file
        (snd (serve POST_submit (valid OpenWriteFails)
                (start (Holds (JArr [])))))
      = Holds (JArr []))
  /\ fst (serve POST_submit (valid DumpFails) (start Absent)) = thank_you
  /\ fst (serve POST_submit (valid NoFault) (start Undecodable)) = thank_you
  /\ status thank_you = 200.
Proof. cbv zeta. repeat split; vm_compute; reflexivity. Qed.

(** C5, amended.  The response of a [POST /submit] is the same whatever
    the file holds and whatever the disk does during the write.  It is the
    500 with the generic failure envelope exactly when the request passes
    the rate limit and an exception is raised where the handler reads the
    request (lines 66-80). *)
Theorem only_the_handler_answers_500 (rq : request) (w : world) :
  let r := fst (serve POST_submit rq w) in
  (forall (io : fault) (f : storage),
      fst (serve POST_submit (with_disk rq io) (with_file w f)) = r)
  /\ (r = sending_error <-> admitted rq w /\ handler_raises rq = true)
  /\ (status r = 500 <-> r = sending_error).
Proof.
  cbv zeta. split; [| split].
  - intros io f.
    destruct (Nat.lt_ge_cases (List.length (ip_requests rq w)) 5)
      as [Hin | Hout].
    + rewrite (serve_submit_admitted rq w Hin).
      rewrite (serve_submit_admitted (with_disk rq io) (with_file w f))
        by (apply admitted_with_disk_file; exact Hin).
      destruct (submit_contact_inner_response rq
                  (with_requests w (pruned rq w))) as (r & E & Hany & _).
      rewrite E, Hany. reflexivity.
    + rewrite (serve_submit_limited rq w) by (unfold admitted; lia).
      rewrite (serve_submit_limited (with_disk rq io) (with_file w f))
        by (rewrite admitted_with_disk_file; unfold admitted; lia).
      reflexivity.
  - destruct (Nat.lt_ge_cases (List.length (ip_requests rq w)) 5)
      as [Hin | Hout].
    + rewrite (serve_submit_admitted rq w Hin).
      destruct (submit_contact_inner_response rq
                  (with_requests w (pruned rq w))) as (r & E & _ & Hr).
      rewrite E. split.
      * intros H. split; [exact Hin | apply Hr, H].
      * intros [_ H]. apply Hr, H.
    + rewrite (serve_submit_limited rq w) by (unfold admitted; lia).
      cbn [fst]. split; [discriminate |].
      intros [Hin _]. unfold admitted in Hin. lia.
  - pose proof (submit_response_is_known rq w) as H. cbv zeta in H.
    split.
    + intros S.
      destruct H as [E | [E | [E | [E | [E | E]]]]]; rewrite E in S |- *;
        try discriminate; reflexivity.
    + intros ->. reflexivity.
Qed.

Lemma get_stripped_dict (data : json) (key s : string) :
  get_stripped data key = Ret s -> exists fields, data = JObj fields.
Proof.
  destruct data; cbn; try discriminate. intros _. eexists; reflexivity.
Qed.

Lemma dict_get_returns (fields : list (string * json)) (key : string)
    (default : json) :
  exists v, dict_get (JObj fields) key default = Ret v.
Proof. cbn. destruct (assoc key fields); eexists; reflexivity. Qed.

Lemma truthy_nonempty (s : string) : s <> "" -> truthy (JStr s) = true.
Proof. intros H. cbn. destruct s; [congruence | reflexivity]. Qed.

(** The handler on a request whose body is a true dict with string text
    fields: what is left is lines 85-124. *)
Lemma submit_contact_inner_parsed (rq : request) (w : world) (data : json)
    (name email phone : string) (service : json) (message : string) :
  get_json rq = Ret data ->
  truthy data = true ->
  parsed data name email phone service message ->
  exists contact_method,
    submit_contact_inner rq w
    = if negb (forallb truthy [JStr name; JStr email; JStr message; service])
      then (Ret missing_fields, w)
      else if negb (contains "@" email) || negb (contains "." email)
      then (Ret invalid_email, w)
      else
        (Ret thank_you,
         snd (save_contact_submission (disk rq)
                (submission rq name email phone service message
                   contact_method)
                (with_requests w
                   (contact_requests w
                    ++ [mkentry (remote_addr rq) (now_track rq) email])))).
Proof.
  intros Hjson Hdata (Hname & Hemail & Hphone & Hservice & Hmessage).
  destruct (get_stripped_dict data "name" name Hname) as [fields ->].
  destruct (dict_get_returns fields "contact_method" (JStr "phone"))
    as [contact_method Hcm].
  exists contact_method.
  unfold submit_contact_inner, try_except, bind, lift.
  rewrite Hjson, Hdata, Hname, Hemail, Hphone, Hservice, Hmessage, Hcm.
  cbn [negb].
  destruct (negb (forallb truthy _)); [reflexivity |].
  destruct (negb (contains "@" email) || negb (contains "." email));
    [reflexivity |].
  unfold get_contact_requests, set_contact_requests, ret.
  match goal with
  | |- context [save_contact_submission ?io ?d ?w1] =>
      change w1
        with (with_requests w
                (contact_requests w
                 ++ [mkentry (remote_addr rq) (now_track rq) email]));
      destruct (save_frame io d
                  (with_requests w
                     (contact_requests w
                      ++ [mkentry (remote_addr rq) (now_track rq) email])))
        as [f' E]; rewrite E
  end.
  reflexivity.
Qed.

Lemma parsed_name_truthy (data : json) (name email phone : string)
    (service : json) (message : string) :
  parsed data name email phone service message ->
  name <> "" -> truthy data = true.
Proof.
  intros (Hname & _) Hne.
  destruct (get_stripped_dict data "name" name Hname) as [fields ->].
  destruct fields as [| kv fields]; [| reflexivity].
  cbn in Hname. injection Hname as <-. congruence.
Qed.

(** C6, as stated, fails: an address with "@" and no ".", and one with "."
    and no "@", hold one of the two characters, and both are answered with
    the 400 of the email check. *)
Lemma one_of_the_two_characters_is_not_enough :
  let form email :=
    JObj [("name", JStr "Ann"); ("email", JStr email);
          ("service", JStr "bridal"); ("message", JStr "hello")] in
  contains "@" "ann@localhost" = true
  /\ fst (serve POST_submit (Sample.post (form "ann@localhost") Sample.noon)
            (start Absent))
     = invalid_email
  /\ contains "." "ann.example.org" = true
  /\ fst (serve POST_submit (Sample.post (form "ann.example.org") Sample.noon)
            (start Absent))
     = invalid_email
  /\ status invalid_email = 400.
Proof. cbv zeta. repeat split; vm_compute; reflexivity. Qed.

(** C6, amended.  On a request that passes the rate limit and whose name,
    email, message and service are present, the email check answers 400
    exactly when the trimmed email lacks "@" or lacks "."; an email that
    holds both passes, and the submission is accepted. *)
Theorem email_check_wants_both_characters (rq : request) (w : world)
    (data : json) (name email phone : string) (service : json)
    (message : string) :
  admitted rq w ->
  get_json rq = Ret data ->
  parsed data name email phone service message ->
  name <> "" -> email <> "" -> message <> "" -> truthy service = true ->
  fst (serve POST_submit rq w)
  = if contains "@" email && contains "." email
    then thank_you
    else invalid_email.
Proof.
  intros Hin Hjson Hparsed Hn He Hm Hs.
  rewrite (serve_submit_admitted rq w Hin).
  destruct (submit_contact_inner_parsed rq (with_requests w (pruned rq w))
              data name email phone service message Hjson
              (parsed_name_truthy _ _ _ _ _ _ Hparsed Hn) Hparsed)
    as [contact_method E].
  rewrite E. cbn [forallb].
  rewrite (truthy_nonempty name Hn), (truthy_nonempty email He),
    (truthy_nonempty message Hm), Hs.
  cbn [andb negb].
  destruct (contains "@" email), (contains "." email); reflexivity.
Qed.

Lemma email_check_wants_both_characters_witness :
  fst (serve POST_submit (Sample.post Sample.ann_form Sample.noon)
         (start Absent))
  = if contains "@" "ann@example.org" && contains "." "ann@example.org"
    then thank_you
    else invalid_email.
Proof.
  apply (email_check_wants_both_characters
           (Sample.post Sample.ann_form Sample.noon) (start Absent)
           Sample.ann_form "Ann" "ann@example.org" "" (JStr "bridal")
           "Are you free in June?").
  - unfold admitted. cbn. lia.
  - reflexivity.
  - repeat split; vm_compute; reflexivity.
  - discriminate.
  - discriminate.
  - discriminate.
  - reflexivity.
Defined.

(** C7, as stated, fails: the email is missing and the phone is a number,
    or the name is null, and the answer is the 500; the message is missing
    on the sixth submission of an hour, and the answer is the 429. *)
Lemma missing_field_is_not_always_a_400 :
  fst (serve POST_submit
         (Sample.post
            (JObj [("name", JStr "Ann"); ("phone", JNum 254710347138);
                   ("service", JStr "bridal"); ("message", JStr "hello")])
            Sample.noon)
         (start Absent))
  = sending_error
  /\ fst (serve POST_submit
            (Sample.post
               (JObj [("name", JNull); ("email", JStr "ann@example.org");
                      ("service", JStr "bridal"); ("message", JStr "hello")])
               Sample.noon)
            (start Absent))
     = sending_error
  /\ fst (serve POST_submit
            (Sample.post
               (JObj [("name", JStr "Ann");
                      ("email", JStr "ann@example.org");
                      ("service", JStr "bridal")])
               Sample.noon)
            (mkworld (Sample.five_entries Sample.noon) Absent
               CONTACT_INFO_literal))
     = too_many
  /\ status sending_error = 500
  /\ status too_many = 429.
Proof. repeat split; vm_compute; reflexivity. Qed.

(** C7, amended.  On a request that passes the rate limit and whose body
    is a false value, or a dict in which name, email, phone and message are
    strings where present: if the trimmed name, email or message is empty
    or missing, or the service is missing or a false value, the answer is a
    400 with a failure envelope, the file is not written and no entry is
    added. *)
Theorem missing_field_is_answered_400 (rq : request) (w : world)
    (data : json) (name email phone : string) (service : json)
    (message : string) :
  admitted rq w ->
  get_json rq = Ret data ->
  truthy data = false
  \/ (parsed data name email phone service message
      /\ (name = "" \/ email = "" \/ message = ""
          \/ truthy service = false)) ->
  exists text,
    serve POST_submit rq w
    = (mkresponse (jsonify (failure text)) 400,
       with_requests w (pruned rq w)).
Proof.
  intros Hin Hjson H.
  unfold serve, view, submit_contact. rewrite rate_limit_unfold.
  apply Nat.leb_gt in Hin. rewrite Hin.
  destruct (truthy data) eqn:Hdata.
  - destruct H as [H | [Hparsed Hblank]]; [discriminate |].
    destruct (submit_contact_inner_parsed rq (with_requests w (pruned rq w))
                data name email phone service message Hjson Hdata Hparsed)
      as [contact_method E].
    rewrite E.
    assert (Hall : forallb truthy [JStr name; JStr email; JStr message;
                                   service] = false).
    { cbn [forallb].
      destruct Hblank as [-> | [-> | [-> | ->]]]; cbn [truthy String.eqb negb];
        rewrite ?andb_false_r; reflexivity. }
    rewrite Hall. cbn [negb]. eexists; reflexivity.
  - unfold submit_contact_inner, try_except, bind, lift.
    rewrite Hjson, Hdata. cbn [negb]. eexists; reflexivity.
Qed.

Lemma missing_field_is_answered_400_witness :
  exists text,
    serve POST_submit
      (Sample.post
         (JObj [("name", JStr "Ann"); ("email", JStr "ann@example.org");
                ("service", JStr "bridal"); ("message", JStr "   ")])
         Sample.noon)
      (start Absent)
    = (mkresponse (jsonify (failure text)) 400,
       with_requests (start Absent)
         (pruned
            (Sample.post
               (JObj [("name", JStr "Ann");
                      ("email", JStr "ann@example.org");
                      ("service", JStr "bridal"); ("message", JStr "   ")])
               Sample.noon)
            (start Absent))).
Proof.
  apply (missing_field_is_answered_400
           (Sample.post
              (JObj [("name", JStr "Ann"); ("email", JStr "ann@example.org");
                     ("service", JStr "bridal"); ("message", JStr "   ")])
              Sample.noon)
           (start Absent)
           (JObj [("name", JStr "Ann"); ("email", JStr "ann@example.org");
                  ("service", JStr "bridal"); ("message", JStr "   ")])
           "Ann" "ann@example.org" "" (JStr "bridal") "").
  - unfold admitted. cbn. lia.
  - reflexivity.
  - right. split.
    + repeat split; vm_compute; reflexivity.
    + right. right. left. reflexivity.
Defined.

(** ** The health check *)

Lemma serve_keeps_CONTACT_INFO (ep : endpoint) (rq : request) (w : world) :
  CONTACT_INFO (snd (serve ep rq w)) = CONTACT_INFO w.
Proof.
  destruct ep; try (rewrite serve_other by discriminate; reflexivity).
  destruct (serve_submit_cases rq w) as [(r & E & _) | (email & f' & E)];
    rewrite E; reflexivity.
Qed.

Lemma serve_all_keeps_CONTACT_INFO (reqs : list (endpoint * request)) :
  forall w : world, CONTACT_INFO (snd (serve_all w reqs)) = CONTACT_INFO w.
Proof.
  induction reqs as [| [ep rq] rest IH]; intros w; [reflexivity |].
  rewrite serve_all_cons; cbn [snd]. rewrite IH. apply serve_keeps_CONTACT_INFO.
Qed.

(** C9.  After any run of a freshly started server, whatever the requests
    were, [CONTACT_INFO] is the dictionary of lines 15-24, and [GET /health]
    answers 200 with status "healthy" and that dictionary as contact_info,
    leaving the state as it is. *)
Theorem health_check_echoes_the_contact_info (f : storage)
    (reqs : list (endpoint * request)) (rq : request) :
  let w := snd (serve_all (start f) reqs) in
  CONTACT_INFO w = CONTACT_INFO_literal
  /\ serve GET_health rq w
     = (mkresponse
          (jsonify
             (JObj [("status", JStr "healthy");
                    ("timestamp", JStr (isoformat (now_stamp rq)));
                    ("service", JStr "Fash Rodah Portfolio");
                    ("contact_info", CONTACT_INFO_literal)]))
          200,
        w).
Proof.
  intros w.
  assert (E : CONTACT_INFO w = CONTACT_INFO_literal)
    by (unfold w; rewrite serve_all_keeps_CONTACT_INFO; reflexivity).
  split; [exact E |].
  unfold serve, view, health_check, bind, read_CONTACT_INFO, ret.
  rewrite E. reflexivity.
Qed.

(** * Further properties *)

(** ** The window of the rate limiter *)

(** X1.  The pruning of line 37-38 keeps an entry exactly when its age,
    reduced modulo one day, is less than an hour: when the age lies in
    [d days, d days + 1 hour) for some whole number [d] of days, negative
    ones included. *)
Theorem kept_exactly_when_age_mod_day_under_hour (now : datetime)
    (req : rate_entry) :
  within_hour now req = true
  <-> exists d : Z,
      d * DAY <= age now (entry_time req) < d * DAY + HOUR.
Proof.
  split.
  - intros H. rewrite within_hour_age in H. apply Z.ltb_lt in H.
    exists (age now (entry_time req) / DAY).
    pose proof (Z.div_mod (age now (entry_time req)) DAY) as Hdm.
    pose proof (Z.mod_pos_bound (age now (entry_time req)) DAY) as Hb.
    unfold DAY in *. lia.
  - intros [d H]. exact (within_hour_days_later now req d H).
Qed.

(** X2.  When every entry of the caller's address is at least an hour and
    less than a day old, the pruning removes them all: no entry of that
    address is left, the request passes the test of line 45 and is not
    answered 429. *)
Theorem expired_entries_free_the_address (rq : request) (w : world) :
  (forall e, In e (contact_requests w) ->
             from_ip (remote_addr rq) e = true ->
             HOUR <= age (now_check rq) (entry_time e) < DAY) ->
  ip_requests rq w = []
  /\ admitted rq w
  /\ fst (serve POST_submit rq w) <> too_many.
Proof.
  intros H.
  assert (E : ip_requests rq w = []).
  { unfold ip_requests, pruned.
    induction (contact_requests w) as [| e l IH]; [reflexivity |].
    cbn [filter].
    assert (IH' : filter (fun req => ip_eqb (entry_ip req) (remote_addr rq))
                    (filter (within_hour (now_check rq)) l) = [])
      by (apply IH; intros e' Hin; apply H; right; exact Hin).
    destruct (within_hour (now_check rq) e) eqn:Hk; [| exact IH'].
    cbn [filter]. destruct (ip_eqb (entry_ip e) (remote_addr rq)) eqn:Hip;
      [| exact IH'].
    rewrite (within_hour_expired_same_day (now_check rq) e) in Hk;
      [discriminate |].
    apply H; [left; reflexivity | exact Hip]. }
  assert (Hin : admitted rq w) by (unfold admitted; rewrite E; cbn; lia).
  split; [exact E | split; [exact Hin |]].
  rewrite (serve_submit_admitted rq w Hin).
  destruct (submit_contact_inner_cases rq (with_requests w (pruned rq w)))
    as [(r & E' & Hr) | (email & data & E')]; rewrite E'; cbn [fst].
  - destruct Hr as [-> | [-> | [-> | ->]]]; discriminate.
  - discriminate.
Qed.

Lemma expired_entries_free_the_address_witness :
  let rq := Sample.post Sample.ann_form (Sample.at_time 13 0 0) in
  let w := mkworld (Sample.five_entries Sample.noon) Absent
             CONTACT_INFO_literal in
  ip_requests rq w = []
  /\ admitted rq w
  /\ fst (serve POST_submit rq w) <> too_many.
Proof.
  apply (expired_entries_free_the_address
           (Sample.post Sample.ann_form (Sample.at_time 13 0 0))
           (mkworld (Sample.five_entries Sample.noon) Absent
              CONTACT_INFO_literal)).
  intros e Hin _.
  assert (E : e = Sample.ann_entry Sample.noon).
  { cbn in Hin. intuition congruence. }
  rewrite E. vm_compute. split; [intros X; discriminate X | reflexivity].
Defined.

Lemma ip_eqb_eq (a b : option string) : ip_eqb a b = true -> a = b.
Proof.
  destruct a as [x |], b as [y |]; cbn; try discriminate; try reflexivity.
  intros H. apply String.eqb_eq in H. congruence.
Qed.

Lemma filter_between {A} (p q : A -> bool) (l : list A) :
  filter p (filter q (filter p l)) = filter p (filter q l).
Proof.
  induction l as [| x l IH]; [reflexivity |].
  cbn [filter]. destruct (p x) eqn:Hp; cbn [filter].
  - destruct (q x); cbn [filter]; rewrite ?Hp, IH; reflexivity.
  - destruct (q x); cbn [filter]; rewrite ?Hp; exact IH.
Qed.

Lemma with_disk_same (rq : request) : with_disk rq (disk rq) = rq.
Proof. destruct rq; reflexivity. Qed.

(** X3.  The answer to a [POST /submit] does not depend on the entries of
    other addresses: it is the answer the request gets when [contact_requests]
    holds the entries of the caller's address alone. *)
Theorem other_addresses_do_not_count (rq : request) (w : world) :
  fst (serve POST_submit rq w)
  = fst (serve POST_submit rq
           (with_requests w
              (filter (from_ip (remote_addr rq)) (contact_requests w)))).
Proof.
  set (w2 := with_requests w
               (filter (from_ip (remote_addr rq)) (contact_requests w))).
  assert (E : ip_requests rq w2 = ip_requests rq w).
  { unfold ip_requests, pruned, w2, from_ip;
      cbn [with_requests contact_requests].
    apply (filter_between
             (fun req => ip_eqb (entry_ip req) (remote_addr rq))). }
  destruct (Nat.lt_ge_cases (List.length (ip_requests rq w)) 5)
    as [Hin | Hout].
  - rewrite (serve_submit_admitted rq w Hin).
    rewrite (serve_submit_admitted rq w2)
      by (unfold admitted; rewrite E; exact Hin).
    destruct (submit_contact_inner_response rq
                (with_requests w (pruned rq w))) as (r & Hr & Hany & _).
    specialize (Hany (disk rq) (with_requests w2 (pruned rq w2))).
    rewrite with_disk_same in Hany. rewrite Hr, Hany. reflexivity.
  - rewrite (serve_submit_limited rq w) by (unfold admitted; lia).
    rewrite (serve_submit_limited rq w2)
      by (unfold admitted; rewrite E; lia).
    reflexivity.
Qed.

Lemma count_filter_le {A} (p q : A -> bool) (l : list A) :
  (count p (filter q l) <= count p l)%nat.
Proof.
  unfold count. induction l as [| x l IH]; [cbn; lia |].
  cbn [filter]. destruct (q x); cbn [filter]; destruct (p x);
    cbn [List.length]; lia.
Qed.

Lemma serve_keeps_five_per_address (ep : endpoint) (rq : request)
    (w : world) :
  (forall ip, (count (from_ip ip) (contact_requests w) <= 5)%nat) ->
  forall ip,
    (count (from_ip ip) (contact_requests (snd (serve ep rq w))) <= 5)%nat.
Proof.
  intros H ip.
  destruct ep; try (rewrite serve_other by discriminate; apply H).
  destruct (Nat.lt_ge_cases (List.length (ip_requests rq w)) 5)
    as [Hin | Hout].
  - destruct (serve_submit_cases rq w) as [(r & E & _) | (email & f' & E)];
      rewrite E; cbn [snd with_requests contact_requests].
    + eapply Nat.le_trans; [apply count_filter_le | apply H].
    + rewrite count_app.
      change (count (from_ip ip)
                [mkentry (remote_addr rq) (now_track rq) email])
        with (List.length
                (if ip_eqb (remote_addr rq) ip
                 then [mkentry (remote_addr rq) (now_track rq) email]
                 else [])).
      destruct (ip_eqb (remote_addr rq) ip) eqn:Hip; cbn [List.length].
      * apply ip_eqb_eq in Hip. subst ip.
        unfold ip_requests in Hin. unfold count, from_ip. lia.
      * pose proof (count_filter_le (from_ip ip)
                      (within_hour (now_check rq)) (contact_requests w)).
        specialize (H ip). unfold pruned. lia.
  - rewrite (serve_submit_limited rq w) by (unfold admitted; lia).
    cbn [snd with_requests contact_requests].
    eapply Nat.le_trans; [apply count_filter_le | apply H].
Qed.

(** X4.  A server that starts with an empty list never holds more than five
    entries of one address, whatever requests it gets, whatever the clock
    and the disk do. *)
Theorem never_more_than_five_entries_per_address (f : storage)
    (reqs : list (endpoint * request)) (ip : option string) :
  (count (from_ip ip) (contact_requests (snd (serve_all (start f) reqs)))
   <= 5)%nat.
Proof.
  assert (H : forall w,
             (forall ip, (count (from_ip ip) (contact_requests w) <= 5)%nat) ->
             forall ip,
               (count (from_ip ip)
                  (contact_requests (snd (serve_all w reqs))) <= 5)%nat).
  { induction reqs as [| [ep rq] rest IH]; intros w Hw; [exact Hw |].
    rewrite serve_all_cons; cbn [snd].
    apply IH, serve_keeps_five_per_address, Hw. }
  apply H. intros ip'. cbn. lia.
Qed.

(** ** Validation *)

Lemma truthy_str (s : string) : truthy (JStr s) = true -> s <> "".
Proof. cbn. destruct s; [discriminate | discriminate]. Qed.

(** X5.  A [POST /submit] is answered 200 only when it passed the rate
    limit and its body is a dict whose name, email, phone and message are
    strings (or absent), whose trimmed name, email and message are not
    empty, whose service is a true value, and whose trimmed email holds both
    "@" and ".". *)
Theorem accepted_submission_is_valid (rq : request) (w : world) :
  status (fst (serve POST_submit rq w)) = 200 ->
  admitted rq w
  /\ exists data name email phone service message,
      get_json rq = Ret data
      /\ parsed data name email phone service message
      /\ name <> "" /\ email <> "" /\ message <> ""
      /\ truthy service = true
      /\ contains "@" email = true /\ contains "." email = true.
Proof.
  intros S.
  destruct (Nat.lt_ge_cases (List.length (ip_requests rq w)) 5)
    as [Hin | Hout];
    [| rewrite (serve_submit_limited rq w) in S
         by (unfold admitted; lia); discriminate].
  split; [exact Hin |].
  rewrite (serve_submit_admitted rq w Hin) in S.
  unfold submit_contact_inner, try_except, bind, lift in S.
  destruct (get_json rq) as [data | e] eqn:Hjson; [| discriminate].
  destruct (truthy data); cbn [negb] in S; [| discriminate].
  destruct (get_stripped data "name") as [name | e] eqn:Hname;
    [| discriminate].
  destruct (get_stripped data "email") as [email | e] eqn:Hemail;
    [| discriminate].
  destruct (get_stripped data "phone") as [phone | e] eqn:Hphone;
    [| discriminate].
  destruct (dict_get data "service" (JStr "")) as [service | e] eqn:Hservice;
    [| discriminate].
  destruct (get_stripped data "message") as [message | e] eqn:Hmessage;
    [| discriminate].
  destruct (dict_get data "contact_method" (JStr "phone"))
    as [contact_method | e]; [| discriminate].
  destruct (forallb truthy [JStr name; JStr email; JStr message; service])
    eqn:Hall; cbn [negb] in S; [| discriminate].
  destruct (contains "@" email) eqn:Hat; cbn [negb orb] in S;
    [| discriminate].
  destruct (contains "." email) eqn:Hdot; cbn [negb] in S; [| discriminate].
  cbn [forallb] in Hall.
  apply andb_prop in Hall as [Hn Hall]. apply andb_prop in Hall as [He Hall].
  apply andb_prop in Hall as [Hm Hall]. apply andb_prop in Hall as [Hs _].
  exists data, name, email, phone, service, message.
  repeat split; try assumption; apply truthy_str; assumption.
Qed.

Lemma accepted_submission_is_valid_witness :
  admitted (Sample.post Sample.ann_form Sample.noon) (start Absent)
  /\ exists data name email phone service message,
      get_json (Sample.post Sample.ann_form Sample.noon) = Ret data
      /\ parsed data name email phone service message
      /\ name <> "" /\ email <> "" /\ message <> ""
      /\ truthy service = true
      /\ contains "@" email = true /\ contains "." email = true.
Proof.
  apply (accepted_submission_is_valid
           (Sample.post Sample.ann_form Sample.noon) (start Absent)).
  vm_compute. reflexivity.
Defined.

Lemma lstrip_all_space (s : string) : all_space s = true -> lstrip s = "".
Proof.
  induction s as [| c s IH]; [reflexivity |].
  cbn [all_space lstrip]. intros H. apply andb_prop in H as [Hc Hs].
  rewrite Hc. exact (IH Hs).
Qed.

Lemma assoc_some_truthy (key : string) (fields : list (string * json))
    (v : json) :
  assoc key fields = Some v -> truthy (JObj fields) = true.
Proof. destruct fields; [discriminate | reflexivity]. Qed.

(** X6.  A name, an email or a message made of white space alone counts as
    missing: on a request that passes the rate limit and whose text fields
    are strings, the answer is the 400 of line 86 and nothing is stored. *)
Theorem blank_field_counts_as_missing (rq : request) (w : world)
    (fields : list (string * json)) (name email phone : string)
    (service : json) (message key s : string) :
  admitted rq w ->
  get_json rq = Ret (JObj fields) ->
  parsed (JObj fields) name email phone service message ->
  key = "name" \/ key = "email" \/ key = "message" ->
  assoc key fields = Some (JStr s) ->
  all_space s = true ->
  serve POST_submit rq w = (missing_fields, with_requests w (pruned rq w)).
Proof.
  intros Hin Hjson Hparsed Hkey Hassoc Hs.
  assert (Hget : get_stripped (JObj fields) key = Ret "").
  { unfold get_stripped, dict_get. rewrite Hassoc. cbn [strip].
    unfold str_strip. rewrite (lstrip_all_space s Hs). reflexivity. }
  assert (Hall : forallb truthy [JStr name; JStr email; JStr message; service]
                 = false).
  { destruct Hparsed as (Hname & Hemail & _ & _ & Hmessage).
    cbn [forallb].
    destruct Hkey as [-> | [-> | ->]].
    - rewrite Hget in Hname. injection Hname as <-. reflexivity.
    - rewrite Hget in Hemail. injection Hemail as <-.
      cbn [truthy String.eqb negb]. rewrite ?andb_false_r. reflexivity.
    - rewrite Hget in Hmessage. injection Hmessage as <-.
      cbn [truthy String.eqb negb]. rewrite ?andb_false_r. reflexivity. }
  unfold serve, view, submit_contact. rewrite rate_limit_unfold.
  apply Nat.leb_gt in Hin. rewrite Hin.
  destruct (submit_contact_inner_parsed rq (with_requests w (pruned rq w))
              (JObj fields) name email phone service message Hjson
              (assoc_some_truthy key fields (JStr s) Hassoc) Hparsed)
    as [contact_method E].
  rewrite E, Hall. reflexivity.
Qed.

Lemma blank_field_counts_as_missing_witness :
  let fields :=
    [("name", JStr "Ann"); ("email", JStr "ann@example.org");
     ("service", JStr "bridal"); ("message", JStr "   ")] in
  let rq := Sample.post (JObj fields) Sample.noon in
  serve POST_submit rq (start Absent)
  = (missing_fields, with_requests (start Absent) (pruned rq (start Absent))).
Proof.
  apply (blank_field_counts_as_missing
           (Sample.post
              (JObj [("name", JStr "Ann"); ("email", JStr "ann@example.org");
                     ("service", JStr "bridal"); ("message", JStr "   ")])
              Sample.noon)
           (start Absent)
           [("name", JStr "Ann"); ("email", JStr "ann@example.org");
            ("service", JStr "bridal"); ("message", JStr "   ")]
           "Ann" "ann@example.org" "" (JStr "bridal") "" "message" "   ").
  - unfold admitted. cbn. lia.
  - reflexivity.
  - repeat split; vm_compute; reflexivity.
  - right. right. reflexivity.
  - vm_compute. reflexivity.
  - vm_compute. reflexivity.
Defined.

(** ** What the store keeps and what it loses *)

Lemma save_on_usable (data : json) (w : world) :
  usable (submissions_file w) ->
  save_contact_submission NoFault data w
  = (Ret tt,
     with_file w
       (Holds (JArr (last_n 100
                       (stored_records (submissions_file w) ++ [data]))))).
Proof.
  destruct w as [l f ci]; cbn [submissions_file].
  destruct f as [| | doc | e];
    [reflexivity | reflexivity | | cbn [usable]; contradiction].
  destruct doc; cbn [usable]; try contradiction. intros _.
  rewrite (save_on_array data _ items) by reflexivity.
  rewrite capped_last_n. reflexivity.
Qed.

(** X7.  An accepted submission on a disk that behaves, over no file, a
    file whose text is not a JSON document ([json.load] raises
    JSONDecodeError) or a stored array: the answer is the 200, the list gets
    one entry with the caller's address, the reading of line 101 and the
    trimmed email, and the file holds the last 100 of the records it held
    followed by the record of the trimmed fields. *)
Theorem accepted_submission_is_stored (rq : request) (w : world)
    (data : json) (name email phone : string) (service : json)
    (message : string) (contact_method : json) :
  admitted rq w ->
  get_json rq = Ret data ->
  parsed data name email phone service message ->
  dict_get data "contact_method" (JStr "phone") = Ret contact_method ->
  name <> "" -> email <> "" -> message <> "" -> truthy service = true ->
  contains "@" email = true -> contains "." email = true ->
  disk rq = NoFault ->
  usable (submissions_file w) ->
  serve POST_submit rq w
  = (thank_you,
     mkworld
       (pruned rq w ++ [mkentry (remote_addr rq) (now_track rq) email])
       (Holds
          (JArr
             (last_n 100
                (stored_records (submissions_file w)
                 ++ [submission rq name email phone service message
                       contact_method]))))
       (CONTACT_INFO w)).
Proof.
  intros Hin Hjson Hparsed Hcm Hn He Hm Hs Hat Hdot Hdisk Hfile.
  pose proof (parsed_name_truthy _ _ _ _ _ _ Hparsed Hn) as Hdata.
  destruct Hparsed as (Hname & Hemail & Hphone & Hservice & Hmessage).
  unfold serve, view, submit_contact. rewrite rate_limit_unfold.
  apply Nat.leb_gt in Hin. rewrite Hin.
  unfold submit_contact_inner, try_except, bind, lift.
  rewrite Hjson, Hdata, Hname, Hemail, Hphone, Hservice, Hmessage, Hcm.
  cbn [negb forallb].
  rewrite (truthy_nonempty name Hn), (truthy_nonempty email He),
    (truthy_nonempty message Hm), Hs, Hat, Hdot, Hdisk.
  cbn [andb negb orb].
  unfold get_contact_requests, set_contact_requests, ret.
  match goal with
  | |- context [save_contact_submission NoFault ?d ?w1] =>
      rewrite (save_on_usable d w1) by exact Hfile
  end.
  reflexivity.
Qed.

Lemma accepted_submission_is_stored_witness :
  let rq := Sample.post Sample.ann_form Sample.noon in
  let w := start (Holds (JArr [JStr "earlier"])) in
  serve POST_submit rq w
  = (thank_you,
     mkworld
       (pruned rq w
        ++ [mkentry (remote_addr rq) (now_track rq) "ann@example.org"])
       (Holds
          (JArr
             (last_n 100
                (stored_records (submissions_file w)
                 ++ [submission rq "Ann" "ann@example.org" "" (JStr "bridal")
                       "Are you free in June?" (JStr "phone")]))))
       (CONTACT_INFO w)).
Proof.
  apply (accepted_submission_is_stored
           (Sample.post Sample.ann_form Sample.noon)
           (start (Holds (JArr [JStr "earlier"]))) Sample.ann_form
           "Ann" "ann@example.org" "" (JStr "bridal") "Are you free in June?"
           (JStr "phone")).
  - unfold admitted. cbn. lia.
  - reflexivity.
  - repeat split; vm_compute; reflexivity.
  - reflexivity.
  - discriminate.
  - discriminate.
  - discriminate.
  - reflexivity.
  - vm_compute. reflexivity.
  - vm_compute. reflexivity.
  - reflexivity.
  - exact I.
Defined.

(** X8.  Below the cap a write only appends; on a file of exactly 100
    records it drops the oldest one and appends the new one at the end. *)
Theorem full_store_drops_the_oldest (w : world) (items : list json)
    (oldest : json) (others : list json) (data : json) :
  (List.length items < 100)%nat ->
  List.length others = 99%nat ->
  submissions_file
    (snd (save_contact_submission NoFault data
            (with_file w (Holds (JArr items)))))
  = Holds (JArr (items ++ [data]))
  /\ submissions_file
       (snd (save_contact_submission NoFault data
               (with_file w (Holds (JArr (oldest :: others))))))
     = Holds (JArr (others ++ [data])).
Proof.
  intros Hitems Hothers. split.
  - rewrite (save_on_array data _ items) by reflexivity.
    cbn [snd with_file submissions_file]. unfold capped.
    rewrite length_app. cbn [List.length].
    destruct (Nat.ltb_spec 100 (List.length items + 1)); [lia | reflexivity].
  - rewrite (save_on_array data _ (oldest :: others)) by reflexivity.
    cbn [snd with_file submissions_file]. unfold capped, last_n.
    rewrite length_app. cbn [List.length]. rewrite Hothers.
    reflexivity.
Qed.

Lemma full_store_drops_the_oldest_witness :
  let others := map (fun n => JNum (Z.of_nat n)) (seq 1 99) in
  submissions_file
    (snd (save_contact_submission NoFault (JNum 100)
            (with_file (start Absent) (Holds (JArr [JNum 1])))))
  = Holds (JArr ([JNum 1] ++ [JNum 100]))
  /\ submissions_file
       (snd (save_contact_submission NoFault (JNum 100)
               (with_file (start Absent)
                  (Holds (JArr (JNum 0 :: others))))))
     = Holds (JArr (others ++ [JNum 100])).
Proof.
  apply (full_store_drops_the_oldest (start Absent) [JNum 1] (JNum 0)
           (map (fun n => JNum (Z.of_nat n)) (seq 1 99)) (JNum 100)).
  - cbn. lia.
  - reflexivity.
Defined.

(** X9.  A dump that fails part-way costs every record: the file is left
    undecodable, the store returns as if nothing had happened, and the next
    write that succeeds starts the array again with its one record. *)
Theorem failed_dump_loses_the_records (w : world) (lost next : json) :
  usable (submissions_file w) ->
  save_contact_submission DumpFails lost w = (Ret tt, with_file w Undecodable)
  /\ submissions_file (write_all [(DumpFails, lost); (NoFault, next)] w)
     = Holds (JArr [next]).
Proof.
  intros H.
  assert (E : save_contact_submission DumpFails lost w
              = (Ret tt, with_file w Undecodable)).
  { destruct w as [l f ci]; cbn [submissions_file] in H.
    destruct f as [| | doc | e];
      [reflexivity | reflexivity | | cbn [usable] in H; contradiction].
    destruct doc; cbn [usable] in H; try contradiction. reflexivity. }
  split; [exact E |].
  cbn [write_all]. rewrite E. cbn [snd].
  rewrite (save_on_nothing next (with_file w Undecodable))
    by (right; reflexivity).
  reflexivity.
Qed.

Lemma failed_dump_loses_the_records_witness :
  let w := start (Holds (JArr [JStr "first"; JStr "second"])) in
  save_contact_submission DumpFails (JStr "third") w
  = (Ret tt, with_file w Undecodable)
  /\ submissions_file
       (write_all [(DumpFails, JStr "third"); (NoFault, JStr "fourth")] w)
     = Holds (JArr [JStr "fourth"]).
Proof.
  apply (failed_dump_loses_the_records
           (start (Holds (JArr [JStr "first"; JStr "second"])))
           (JStr "third") (JStr "fourth")).
  exact I.
Defined.

(** X10.  When the file cannot be opened for writing, or when it is there
    and cannot be opened for reading, the store returns normally and the
    state is the one before the call: the record is dropped without a
    trace. *)
Theorem failed_open_drops_the_record (io : fault) (data : json) (w : world) :
  io = OpenWriteFails
  \/ (io = OpenReadFails /\ submissions_file w <> Absent) ->
  save_contact_submission io data w = (Ret tt, w).
Proof.
  destruct w as [l f ci]; cbn [submissions_file].
  intros [-> | [-> Hf]].
  - destruct f as [| | doc | e]; try reflexivity;
      [destruct doc | destruct e]; reflexivity.
  - destruct f as [| | doc | e];
      [congruence | reflexivity | reflexivity | reflexivity].
Qed.

Lemma failed_open_drops_the_record_witness :
  save_contact_submission OpenWriteFails (JStr "new")
    (start (Holds (JArr [JStr "old"])))
  = (Ret tt, start (Holds (JArr [JStr "old"]))).
Proof.
  apply (failed_open_drops_the_record OpenWriteFails (JStr "new")
           (start (Holds (JArr [JStr "old"])))).
  left. reflexivity.
Defined.

(** X11.  A file that decodes to anything but an array blocks the store for
    good: [append] raises on it before the file is opened for writing, so
    whatever is written and whatever the disk does, the file stays as it
    is. *)
Theorem non_array_file_blocks_the_store (w : world) (doc : json)
    (writes : list (fault * json)) :
  submissions_file w = Holds doc ->
  is_array doc = false ->
  write_all writes w = w.
Proof.
  intros Hf Hdoc. induction writes as [| [io data] rest IH]; [reflexivity |].
  cbn [write_all].
  assert (E : save_contact_submission io data w = (Ret tt, w)).
  { destruct w as [l f ci]; cbn [submissions_file] in Hf; subst f.
    destruct doc; try discriminate; destruct io; reflexivity. }
  rewrite E. exact IH.
Qed.

Lemma non_array_file_blocks_the_store_witness :
  write_all [(NoFault, JStr "a"); (DumpFails, JStr "b"); (NoFault, JStr "c")]
    (start (Holds (JObj [("submissions", JArr [])])))
  = start (Holds (JObj [("submissions", JArr [])])).
Proof.
  apply (non_array_file_blocks_the_store
           (start (Holds (JObj [("submissions", JArr [])])))
           (JObj [("submissions", JArr [])])).
  - reflexivity.
  - reflexivity.
Defined.

(** ** Listing the submissions *)

Lemma get_submissions_on_array (rq : request) (w : world)
    (items : list json) :
  submissions_file w = Holds (JArr items) ->
  disk rq <> OpenReadFails ->
  serve GET_submissions rq w
  = (listing (Z.of_nat (List.length items)) (JArr items), w).
Proof.
  destruct w as [l f ci]; cbn [submissions_file]; intros -> Hio.
  unfold serve, view, get_submissions, try_except, bind, path_exists,
    open_and_load, read_file, ret, lift, raise; cbn.
  destruct (disk rq); try congruence; reflexivity.
Qed.

(** X12.  [GET /submissions] never changes the state.  It answers the 500
    of line 197 exactly when the file is there and cannot be opened, or its
    text is not a JSON document, or loading it raises another exception, or
    it decodes to a value without a length (a number, a boolean or null);
    in every other case it answers 200. *)
Theorem listing_fails_exactly_on_unreadable_file (rq : request) (w : world) :
  let r := fst (serve GET_submissions rq w) in
  snd (serve GET_submissions rq w) = w
  /\ (r = reading_error
      <-> submissions_file w <> Absent
          /\ (disk rq = OpenReadFails
              \/ submissions_file w = Undecodable
              \/ (exists e, submissions_file w = Unloadable e)
              \/ exists doc,
                  submissions_file w = Holds doc /\ raises (len doc) = true))
  /\ (status r = 200 \/ r = reading_error).
Proof.
  cbv zeta. split; [apply serve_other; discriminate |].
  destruct w as [l f ci]; cbn [submissions_file].
  unfold serve, view, get_submissions, try_except, bind, path_exists,
    open_and_load, read_file, ret, lift, raise; cbn.
  destruct f as [| | doc | e].
  - split; [| left; reflexivity].
    split; [discriminate | intros [H _]; congruence].
  - destruct (disk rq); cbn; (split; [| right; reflexivity]);
      (split; [intros _; split; [discriminate | tauto] | reflexivity]).
  - destruct (disk rq) eqn:Hio; destruct doc; cbn;
      try (split; [| right; reflexivity];
           split; [intros _; split; [discriminate |] | reflexivity];
           first [ left; reflexivity
                 | right; right; right; eexists; split; reflexivity ]);
      (split; [| left; reflexivity]);
      (split; [discriminate |]);
      intros [_ [H | [H | [[e H] | (doc' & H & Hlen)]]]];
      try discriminate; injection H as <-; discriminate.
  - destruct (disk rq); cbn; (split; [| right; reflexivity]);
      (split; [intros _; split; [discriminate |] | reflexivity]);
      right; right; left; eexists; reflexivity.
Qed.

(** X13.  What the store writes is what the listing shows: after a write
    on a disk that behaves, over no file, a file whose text is not a JSON
    document ([json.load] raises JSONDecodeError) or a stored
    array, [GET /submissions] answers 200 with an array of at most 100
    records whose last one is the record written, and with their number as
    count. *)
Theorem written_record_is_listed_last (rq : request) (w : world)
    (data : json) :
  usable (submissions_file w) ->
  disk rq <> OpenReadFails ->
  let w' := snd (save_contact_submission NoFault data w) in
  exists earlier : list json,
    serve GET_submissions rq w'
    = (listing (Z.of_nat (List.length (earlier ++ [data])))
         (JArr (earlier ++ [data])),
       w')
    /\ (List.length (earlier ++ [data]) <= 100)%nat.
Proof.
  intros Hf Hio. cbv zeta.
  rewrite (save_on_usable data w Hf). cbn [snd].
  set (old := stored_records (submissions_file w)).
  exists (last_n 99 old).
  assert (E : last_n 100 (old ++ [data]) = (last_n 99 old ++ [data])%list).
  { unfold last_n. rewrite length_app, skipn_app. cbn [List.length].
    replace (List.length old + 1 - 100)%nat
      with (List.length old - 99)%nat by lia.
    replace (List.length old - 99 - List.length old)%nat with 0%nat by lia.
    reflexivity. }
  split.
  - rewrite <- E. apply get_submissions_on_array; [reflexivity | exact Hio].
  - rewrite length_app. cbn [List.length].
    pose proof (last_n_length 99 old). lia.
Qed.

Lemma written_record_is_listed_last_witness :
  let rq := Sample.post JNull Sample.noon in
  let w' :=
    snd (save_contact_submission NoFault (JStr "new") (start Undecodable)) in
  exists earlier : list json,
    serve GET_submissions rq w'
    = (listing (Z.of_nat (List.length (earlier ++ [JStr "new"])))
         (JArr (earlier ++ [JStr "new"])),
       w')
    /\ (List.length (earlier ++ [JStr "new"]) <= 100)%nat.
Proof.
  apply (written_record_is_listed_last (Sample.post JNull Sample.noon)
           (start Undecodable) (JStr "new")).
  - exact I.
  - discriminate.
Defined.

(** X14.  On a server whose file held at most 100 records, after any run,
    a file that holds an array is listed as it is, with a count that is the
    number of its records and is at most 100. *)
Theorem listing_counts_at_most_100 (w : world)
    (reqs : list (endpoint * request)) (rq : request) (items : list json) :
  (List.length (stored_records (submissions_file w)) <= 100)%nat ->
  submissions_file (snd (serve_all w reqs)) = Holds (JArr items) ->
  disk rq <> OpenReadFails ->
  serve GET_submissions rq (snd (serve_all w reqs))
  = (listing (Z.of_nat (List.length items)) (JArr items),
     snd (serve_all w reqs))
  /\ 0 <= Z.of_nat (List.length items) <= 100.
Proof.
  intros Hw Hf Hio. split.
  - apply get_submissions_on_array; assumption.
  - pose proof (serve_all_keeps_cap reqs w Hw) as Hcap.
    rewrite Hf in Hcap. cbn [stored_records] in Hcap. lia.
Qed.

Lemma listing_counts_at_most_100_witness :
  let w' := snd (serve_all (start Absent) Sample.five_posts) in
  serve GET_submissions (Sample.post JNull Sample.noon) w'
  = (listing (Z.of_nat (List.length (stored_records (submissions_file w'))))
       (JArr (stored_records (submissions_file w'))),
     w')
  /\ 0 <= Z.of_nat (List.length (stored_records (submissions_file w')))
     <= 100.
Proof.
  apply (listing_counts_at_most_100 (start Absent) Sample.five_posts
           (Sample.post JNull Sample.noon)
           (stored_records
              (submissions_file
                 (snd (serve_all (start Absent) Sample.five_posts))))).
  - cbn. lia.
  - vm_compute. reflexivity.
  - discriminate.
Defined.

(** ** The server as a whole *)

(** X15.  Only [POST /submit] writes: a run without it, whatever its
    length, whatever the disk does, leaves the list, the file and
    [CONTACT_INFO] as they were. *)
Theorem run_without_submit_changes_nothing (w : world)
    (reqs : list (endpoint * request)) :
  Forall (fun x => fst x <> POST_submit) reqs ->
  snd (serve_all w reqs) = w.
Proof.
  induction reqs as [| [ep rq] rest IH]; intros H; [reflexivity |].
  rewrite serve_all_cons; cbn [snd].
  apply Forall_cons_iff in H as [Hep Hrest]. cbn [fst] in Hep.
  rewrite (serve_other ep rq w Hep). exact (IH Hrest).
Qed.

Lemma run_without_submit_changes_nothing_witness :
  snd (serve_all (start Undecodable)
         [(GET_submissions, Sample.post JNull Sample.noon);
          (GET_health, Sample.post JNull Sample.noon);
          (no_route, Sample.post JNull Sample.noon)])
  = start Undecodable.
Proof.
  apply (run_without_submit_changes_nothing (start Undecodable)
           [(GET_submissions, Sample.post JNull Sample.noon);
            (GET_health, Sample.post JNull Sample.noon);
            (no_route, Sample.post JNull Sample.noon)]).
  repeat constructor; discriminate.
Defined.


Lemma static_pages_with_and_without_index :
  serve GET_home (with_disk (Sample.post JNull Sample.noon) StaticMissing)
    (start Absent)
  = (internal_server_error, start Absent)
  /\ serve no_route (Sample.post JNull Sample.noon) (start Absent)
     = (mkresponse (Static "." "index.html") 404, start Absent)
  /\ serve GET_home (Sample.post JNull Sample.noon) (start Absent)
     = (mkresponse (Static "." "index.html") 200, start Absent).
Proof. repeat split; reflexivity. Qed.

(** X17.  Every answer of [POST /submit] is a JSON envelope with a text:
    the success flag is true with status 200, and false with status 400,
    429 or 500. *)
Theorem submit_answers_with_an_envelope (rq : request) (w : world) :
  let r := fst (serve POST_submit rq w) in
  exists text,
    (status r = 200
     /\ body r
        = jsonify (JObj [("success", JBool true); ("message", JStr text)]))
    \/ ((status r = 400 \/ status r = 429 \/ status r = 500)
        /\ body r = jsonify (failure text)).
Proof.
  cbv zeta. pose proof (submit_response_is_known rq w) as H. cbv zeta in H.
  destruct H as [-> | [-> | [-> | [-> | [-> | ->]]]]];
    eexists; first [ left; split; reflexivity
                   | right; split; [cbn; tauto | reflexivity] ].
Qed.

(** X18.  After any run of a freshly started server, [GET /contact-info]
    answers 200 with the dictionary of lines 15-24 and leaves the state as
    it is. *)
Theorem contact_info_is_the_literal (f : storage)
    (reqs : list (endpoint * request)) (rq : request) :
  let w := snd (serve_all (start f) reqs) in
  serve GET_contact_info rq w
  = (mkresponse (jsonify CONTACT_INFO_literal) 200, w).
Proof.
  intros w.
  unfold serve, view, get_contact_info, bind, read_CONTACT_INFO, ret.
  unfold w. rewrite serve_all_keeps_CONTACT_INFO. reflexivity.
Qed.

Lemma run_adds_one_entry_per_acceptance (ip : option string)
    (reqs : list (endpoint * request)) :
  forall w : world,
    (count (from_ip ip) (contact_requests (snd (serve_all w reqs)))
     <= count (from_ip ip) (contact_requests w)
        + count (accepted_from ip) (transcript w reqs))%nat.
Proof.
  induction reqs as [| [ep rq] rest IH]; intros w; [cbn; lia |].
  rewrite transcript_cons, serve_all_cons, count_cons. cbn [snd].
  specialize (IH (snd (serve ep rq w))).
  destruct (is_submit ep) eqn:Hep.
  - destruct ep; try discriminate. clear Hep.
    pose proof (count_filter_le (from_ip ip) (within_hour (now_check rq))
                  (contact_requests w)) as Hp.
    fold (pruned rq w) in Hp.
    destruct (serve_submit_cases rq w)
      as [(r & E & _) | (email & f' & E)]; rewrite E in IH |- *;
      cbn [fst snd with_requests contact_requests] in IH |- *.
    + lia.
    + rewrite count_app in IH.
      change (count (from_ip ip)
                [mkentry (remote_addr rq) (now_track rq) email])
        with (List.length
                (if ip_eqb (remote_addr rq) ip
                 then [mkentry (remote_addr rq) (now_track rq) email]
                 else [])) in IH.
      assert (Hhead : accepted_from ip (POST_submit, rq, thank_you)
                      = ip_eqb (remote_addr rq) ip).
      { unfold accepted_from; cbn [fst snd is_submit status thank_you andb].
        change (OK =? 200) with true. apply andb_true_r. }
      rewrite Hhead.
      destruct (ip_eqb (remote_addr rq) ip); cbn [List.length] in IH; lia.
  - rewrite (serve_other ep rq w) in * by (intros ->; discriminate). lia.
Qed.

(** X19.  An address with fewer than five accepted submissions since the
    process started is never answered 429, however old its entries are and
    whatever other addresses did. *)
Theorem fewer_than_five_acceptances_never_limited (f : storage)
    (reqs : list (endpoint * request)) (rq : request) :
  (count (accepted_from (remote_addr rq)) (transcript (start f) reqs)
   < 5)%nat ->
  fst (serve POST_submit rq (snd (serve_all (start f) reqs))) <> too_many.
Proof.
  intros H.
  set (w := snd (serve_all (start f) reqs)).
  pose proof (run_adds_one_entry_per_acceptance (remote_addr rq) reqs
                (start f)) as Hrun.
  fold w in Hrun. cbn [start contact_requests] in Hrun.
  unfold count at 2 in Hrun. cbn [filter List.length] in Hrun.
  assert (Hin : admitted rq w).
  { unfold admitted, ip_requests, pruned.
    pose proof (count_filter_le (from_ip (remote_addr rq))
                  (within_hour (now_check rq)) (contact_requests w)) as Hp.
    unfold count, from_ip in *. lia. }
  rewrite (serve_submit_admitted rq w Hin).
  destruct (submit_contact_inner_cases rq (with_requests w (pruned rq w)))
    as [(r & E' & Hr) | (email & data & E')]; rewrite E'; cbn [fst].
  - destruct Hr as [-> | [-> | [-> | ->]]]; discriminate.
  - discriminate.
Qed.

Lemma fewer_than_five_acceptances_never_limited_witness :
  fst (serve POST_submit
         (mkrequest (Some "10.0.0.2") (Ret Sample.ann_form) None
            (Sample.at_time 12 0 5) (Sample.at_time 12 0 5)
            (Sample.at_time 12 0 5) NoFault)
         (snd (serve_all (start Absent) Sample.five_posts)))
  <> too_many.
Proof.
  apply (fewer_than_five_acceptances_never_limited Absent Sample.five_posts
           (mkrequest (Some "10.0.0.2") (Ret Sample.ann_form) None
              (Sample.at_time 12 0 5) (Sample.at_time 12 0 5)
              (Sample.at_time 12 0 5) NoFault)).
  vm_compute. lia.
Defined.

(** X20.  A file whose loading raises an exception that line 144 does not
    catch (UnicodeDecodeError, RecursionError, ValueError) blocks the store
    for good: every later write is given up before the file is opened for
    writing, whatever is written and whatever the disk does. *)
Theorem unloadable_file_blocks_the_store (w : world) (e : exn)
    (writes : list (fault * json)) :
  submissions_file w = Unloadable e ->
  e <> JSONDecodeError ->
  e <> FileNotFoundError ->
  write_all writes w = w.
Proof.
  intros Hf Hj Hn. induction writes as [| [io data] rest IH]; [reflexivity |].
  cbn [write_all].
  assert (E : save_contact_submission io data w = (Ret tt, w)).
  { destruct w as [l f ci]; cbn [submissions_file] in Hf; subst f.
    destruct e; try congruence; destruct io; reflexivity. }
  rewrite E. exact IH.
Qed.

Lemma unloadable_file_blocks_the_store_witness :
  write_all [(NoFault, JStr "a"); (DumpFails, JStr "b"); (NoFault, JStr "c")]
    (start (Unloadable UnicodeDecodeError))
  = start (Unloadable UnicodeDecodeError).
Proof.
  apply (unloadable_file_blocks_the_store
           (start (Unloadable UnicodeDecodeError)) UnicodeDecodeError).
  - reflexivity.
  - discriminate.
  - discriminate.
Defined.
